(** * BetaBinomialMixture: the Python driver around the BOOM mixture engine

    A shallow embedding of
    [Interfaces/python/mixtures/BayesBoom/mixtures/beta_binomial_mixture.py].

    The class keeps two parallel Python lists (component dictionaries and
    prior counts), a lazily built engine model and the table of mixing
    weight draws.  Methods are embedded in a state-and-exception monad over
    the object's attributes; the read-only properties are functions from
    the object to a result.  The numerical engine ([BayesBoom.boom]), numpy's
    scalar arithmetic and allocation limits, and [R.report_progress] are
    interfaces. *)

From Stdlib Require Import ZArith Lia.
From stdpp Require Import gmap strings list.

Open Scope Z_scope.
Open Scope nat_scope.

(** ** Python exceptions and results *)

Module Py.

Inductive exn :=
| TypeError
| ValueError
| IndexError
| KeyError
| AttributeError
| MemoryError
| EngineError (code : nat).

Inductive result (A : Type) :=
| Ok (x : A)
| Raise (e : exn).
Arguments Ok {A} x.
Arguments Raise {A} e.

Definition bind {A B} (r : result A) (k : A → result B) : result B :=
  match r with
  | Ok x => k x
  | Raise e => Raise e
  end.

(** A subscript as Python passes it to [__getitem__]. *)
Inductive key :=
| KInt (z : Z)
| KStr (s : string).

(** [list.__getitem__]: integer subscripts count from either end, any
    other subscript type is a [TypeError]. *)
Definition list_getitem {A} (l : list A) (k : key) : result A :=
  match k with
  | KStr _ => Raise TypeError
  | KInt z =>
      let n := Z.of_nat (length l) in
      let i := (if z <? 0 then z + n else z)%Z in
      if ((i <? 0) || (n <=? i))%Z then Raise IndexError
      else match l !! Z.to_nat i with
           | Some x => Ok x
           | None => Raise IndexError
           end
  end.

(** [dict.__getitem__] on a string key. *)
Definition dict_getitem {V} (d : gmap string V) (k : string) : result V :=
  match d !! k with
  | Some v => Ok v
  | None => Raise KeyError
  end.

(** Left-to-right loop in the exception monad, threading an accumulator. *)
Fixpoint foldM {A X} (f : A → X → result A) (acc : A) (xs : list X)
  : result A :=
  match xs with
  | [] => Ok acc
  | x :: xs' => bind (f acc x) (λ acc', foldM f acc' xs')
  end.

Fixpoint mapM {A B} (f : A → result B) (xs : list A) : result (list B) :=
  match xs with
  | [] => Ok []
  | x :: xs' => bind (f x) (λ y, bind (mapM f xs') (λ ys, Ok (y :: ys)))
  end.

End Py.
Export Py.

#[global] Instance result_ret : MRet result := @Ok.
#[global] Instance result_bind : MBind result := λ A B k r, Py.bind r k.

(** ** Two-dimensional numpy arrays *)

Module Np.

(** A 2-d array: its shape and its cells. *)
Record ndarray (A : Type) := mk_ndarray {
  nrows : nat;
  ncols : nat;
  cell : nat → nat → A
}.
Arguments mk_ndarray {A}.
Arguments nrows {A}.
Arguments ncols {A}.
Arguments cell {A}.

Definition shape {A} (m : ndarray A) : nat * nat := (nrows m, ncols m).

(** Number of elements, numpy's [size]. *)
Definition size {A} (m : ndarray A) : nat := nrows m * ncols m.

(** [np.empty((n, k))]. Negative dimensions are refused. So is a shape
    numpy cannot allocate: [refused n k] is the exception it then raises,
    [ValueError] for a dimension or a byte count beyond its fixed-width
    sizes, [MemoryError] when the memory cannot be had; whether memory
    can be had is taken to depend on the shape alone. An array without
    rows needs none. The cells of a new array hold whatever the allocator
    left there. *)
Definition empty {A} (refused : nat → nat → option exn)
    (junk : nat → nat → A) (n : Z) (k : nat) : result (ndarray A) :=
  if (n <? 0)%Z then Raise ValueError
  else match Z.to_nat n with
       | 0 => Ok (mk_ndarray 0 k junk)
       | S _ as rows =>
           match refused rows k with
           | Some e => Raise e
           | None => Ok (mk_ndarray rows k junk)
           end
       end.

(** The right-hand side of an assignment to a row or column of length
    [len]: a sequence of that length, or of length one (broadcast). *)
Definition broadcast_to {A} (len : nat) (v : list A) : result (nat → option A) :=
  if decide (length v = len) then Ok (λ j, v !! j)
  else match v with
       | [x] => Ok (λ _, Some x)
       | _ => Raise ValueError
       end.

(** [m[i, :] = v] *)
Definition set_row {A} (i : nat) (v : list A) (m : ndarray A)
  : result (ndarray A) :=
  if decide (i < nrows m) then
    src ← broadcast_to (ncols m) v;
    Ok (mk_ndarray (nrows m) (ncols m)
          (λ r c, if decide (r = i)
                  then default (cell m r c) (src c)
                  else cell m r c))
  else Raise IndexError.

(** [m[:, j] = v] *)
Definition set_column {A} (j : nat) (v : list A) (m : ndarray A)
  : result (ndarray A) :=
  if decide (j < ncols m) then
    src ← broadcast_to (nrows m) v;
    Ok (mk_ndarray (nrows m) (ncols m)
          (λ r c, if decide (c = j)
                  then default (cell m r c) (src r)
                  else cell m r c))
  else Raise IndexError.

(** [m[:, j]] *)
Definition column {A} (j : nat) (m : ndarray A) : result (list A) :=
  if decide (j < ncols m) then Ok ((λ r, cell m r j) <$> seq 0 (nrows m))
  else Raise IndexError.

(** One axis of numpy's broadcasting rule. *)
Definition broadcast_dim (d1 d2 : nat) : result nat :=
  if decide (d1 = d2) then Ok d1
  else if decide (d1 = 1) then Ok d2
  else if decide (d2 = 1) then Ok d1
  else Raise ValueError.

(** Element-wise binary operation, with broadcasting. *)
Definition map2 {A} (op : A → A → A) (x y : ndarray A)
  : result (ndarray A) :=
  r ← broadcast_dim (nrows x) (nrows y);
  c ← broadcast_dim (ncols x) (ncols y);
  let at_ (m : ndarray A) (i j : nat) :=
    cell m (if decide (nrows m = r) then i else 0)
           (if decide (ncols m = c) then j else 0) in
  Ok (mk_ndarray r c (λ i j, op (at_ x i j) (at_ y i j))).

(** The cells in row-major order. *)
Definition cells {A} (m : ndarray A) : list A :=
  i ← seq 0 (nrows m); (λ j, cell m i j) <$> seq 0 (ncols m).

(** [m.astype(t)] for a conversion that can fail on a cell, and that
    makes numpy issue its [RuntimeWarning] on the cells [warns] holds of
    (a NaN converted to an integer). The first component tells whether
    the warning is issued, the second is the outcome. *)
Definition astype {A B} (conv : A → result B) (warns : A → bool) (dflt : B)
    (m : ndarray A) : bool * result (ndarray B) :=
  (existsb warns (cells m),
   _ ← mapM conv (cells m);
   Ok (mk_ndarray (nrows m) (ncols m)
         (λ i j, match conv (cell m i j) with
                 | Ok v => v
                 | Raise _ => dflt
                 end))).

End Np.

(** ** What the driver imports *)

(** numpy's [float64] scalars, its allocation limits and the cells of an
    input table. *)
Class Numpy := {
  float : Type;
  fadd : float → float → float;
  fdiv : float → float → float;
  (** what [np.empty] leaves in the cells; nothing below depends on it *)
  junk : nat → nat → float;
  (** the shapes of [float64] arrays [np.empty] cannot allocate, with the
      exception it raises *)
  refused : nat → nat → option exn;
  (** a cell of the table handed to [add_data] *)
  scalar : Type;
  (** the conversion [astype(int)] applies to each cell *)
  to_int : scalar → result Z;
  (** the cells whose conversion makes numpy issue a [RuntimeWarning] *)
  cast_warns : scalar → bool
}.

(** [BayesBoom.boom] and [BayesBoom.R], as far as this class uses them,
    and the terminal of the process. Engine objects are mutated in place,
    so a failing call still returns the object it leaves behind. *)
Class Boom `{Numpy} := {
  (** [R.BetaPrior], [R.DoubleModel]: whatever is passed to [add_component] *)
  Prior : Type;
  MixingDistribution : Type;
  ComponentModel : Type;
  Model : Type;
  Rng : Type;
  (** [MultinomialModel] with its [DirichletModel] prior and sampler *)
  mixing_distribution : list float → result MixingDistribution;
  (** [BetaBinomialModel(1.0, 1.0)] with the sampler made from the priors *)
  component_model : Prior → Prior → result ComponentModel;
  (** [BetaBinomialMixtureModel] with its posterior sampler *)
  mixture_model : list ComponentModel → MixingDistribution → result Model;
  model_add_data : Model → list Z → list Z → list Z → result () * Model;
  sample_posterior : Rng → Model → result () * (Rng * Model);
  (** [mixture_component(c).a] and [.b] *)
  component_a : Model → nat → result float;
  component_b : Model → nat → result float;
  (** [mixing_distribution.probs.to_numpy()] *)
  mixing_probs : Model → result (list float);
  (** [GlobalRng.rng.seed] *)
  seed_rng : Z → Rng → Rng;
  (** the terminal of the process: what has been written to it, together
      with the clock whose reading [R.report_progress] prints *)
  Terminal : Type;
  (** the terminal when the object is made *)
  quiet : Terminal;
  (** what [R.report_progress(i, ping)] does to the terminal *)
  report_progress : nat → option Z → Terminal → Terminal;
  (** what a [RuntimeWarning] issued by numpy does to the terminal *)
  runtime_warning : Terminal → Terminal
}.

(** ** The class *)

Module BetaBinomialMixture.
Section Driver.
Context `{Boom}.

(** What a component dictionary can hold under one of its keys. *)
Inductive value :=
| VPrior (p : Prior)
| VArray (m : Np.ndarray float).

(** The argument of [add_data]. *)
Inductive table :=
| DataFrame (values : Np.ndarray scalar)
| Array (values : Np.ndarray scalar).

(** The object's attributes, then the process state its methods touch.
    [_mixing_weights] is [None] while the attribute has never been
    assigned, [Some None] when it holds Python's [None]. [warnings] are
    the messages the class itself has passed to [warnings.warn]. *)
Record state := mk_state {
  _components : list (gmap string value);
  _mixing_distribution_prior_counts : list float;
  _boom_model : option Model;
  _mixing_weights : option (option (Np.ndarray float));
  rng : Rng;
  warnings : list string;
  terminal : Terminal
}.

Definition set_components (v : list (gmap string value)) (s : state) :=
  mk_state v (_mixing_distribution_prior_counts s) (_boom_model s)
    (_mixing_weights s) (rng s) (warnings s) (terminal s).
Definition set_prior_counts (v : list float) (s : state) :=
  mk_state (_components s) v (_boom_model s)
    (_mixing_weights s) (rng s) (warnings s) (terminal s).
Definition set_boom_model (v : option Model) (s : state) :=
  mk_state (_components s) (_mixing_distribution_prior_counts s) v
    (_mixing_weights s) (rng s) (warnings s) (terminal s).
Definition set_mixing_weights (v : option (option (Np.ndarray float)))
    (s : state) :=
  mk_state (_components s) (_mixing_distribution_prior_counts s)
    (_boom_model s) v (rng s) (warnings s) (terminal s).
Definition set_rng (v : Rng) (s : state) :=
  mk_state (_components s) (_mixing_distribution_prior_counts s)
    (_boom_model s) (_mixing_weights s) v (warnings s) (terminal s).
Definition warn (msg : string) (s : state) :=
  mk_state (_components s) (_mixing_distribution_prior_counts s)
    (_boom_model s) (_mixing_weights s) (rng s) (warnings s ++ [msg])
    (terminal s).
Definition set_terminal (v : Terminal) (s : state) :=
  mk_state (_components s) (_mixing_distribution_prior_counts s)
    (_boom_model s) (_mixing_weights s) (rng s) (warnings s) v.

(** *** Methods run in a state monad with exceptions

    A raised exception keeps the state reached so far: Python does not
    roll back the assignments a method made before it failed. *)
Definition M (A : Type) : Type := state → result A * state.

Definition ret {A} (x : A) : M A := λ s, (Ok x, s).
Definition bind {A B} (m : M A) (k : A → M B) : M B :=
  λ s, match m s with
       | (Ok x, s') => k x s'
       | (Raise e, s') => (Raise e, s')
       end.
Definition get : M state := λ s, (Ok s, s).
Definition modify (f : state → state) : M () := λ s, (Ok (), f s).
Definition lift {A} (r : result A) : M A := λ s, (r, s).
Definition raise {A} (e : exn) : M A := λ s, (Raise e, s).

(** The outcome of a call and the state it leaves. *)
Definition eval {A} (m : M A) (s : state) : result A := (m s).1.
Definition exec {A} (m : M A) (s : state) : state := (m s).2.

#[global] Instance M_ret : MRet M := @ret.
#[global] Instance M_bind : MBind M := λ A B k m, bind m k.

(** [wp m Q s]: run from [s], the call [m] ends with an outcome and in a
    state that satisfy [Q]. *)
Definition wp {A} (m : M A) (Q : result A → state → Prop) (s : state)
  : Prop :=
  Q (eval m s) (exec m s).

(** [for x in xs: body] *)
Fixpoint for_each {X} (xs : list X) (body : X → M ()) : M () :=
  match xs with
  | [] => ret ()
  | x :: xs' => body x;; for_each xs' body
  end.

(** A dictionary value used as a prior object: [v.boom()]. *)
Definition as_prior (v : value) : result Prior :=
  match v with
  | VPrior p => Ok p
  | VArray _ => Raise AttributeError
  end.

(** A dictionary value subscripted as an array. *)
Definition as_array (v : value) : result (Np.ndarray float) :=
  match v with
  | VArray m => Ok m
  | VPrior _ => Raise TypeError
  end.

(** [self._boom_model.<method>]: the attribute holds [None] or a model. *)
Definition the_model (s : state) : result Model :=
  match _boom_model s with
  | Some m => Ok m
  | None => Raise AttributeError
  end.

(** [self._mixing_weights[...]] *)
Definition the_mixing_weights (s : state) : result (Np.ndarray float) :=
  match _mixing_weights s with
  | None => Raise AttributeError
  | Some None => Raise TypeError
  | Some (Some w) => Ok w
  end.

Definition __init__ (r : Rng) : state :=
  mk_state [] [] None None r [] quiet.

Definition number_of_mixture_components (self : state) : nat :=
  length (_mixing_distribution_prior_counts self).

Definition add_component (mean_prior sample_size_prior : Prior)
    (prior_count : float) : M () :=
  modify (λ s, set_prior_counts
                 (_mixing_distribution_prior_counts s ++ [prior_count]) s);;
  modify (set_mixing_weights (Some None));;
  let component : gmap string value :=
    <["mean_prior" := VPrior mean_prior]>
      (<["sample_size_prior" := VPrior sample_size_prior]> ∅) in
  modify (λ s, set_components (_components s ++ [component]) s).

Definition _build_boom_model : M Model :=
  s ← get;
  let prior_counts := _mixing_distribution_prior_counts s in
  mixing ← lift (mixing_distribution prior_counts);
  boom_components ← lift (mapM (λ component : gmap string value,
      mean_prior ← dict_getitem component "mean_prior" ≫= as_prior;
      sample_size_prior ←
        dict_getitem component "sample_size_prior" ≫= as_prior;
      component_model mean_prior sample_size_prior) (_components s));
  lift (mixture_model boom_components mixing).

Definition add_data (data : table) : M () :=
  s ← get;
  (match _boom_model s with
   | None => m ← _build_boom_model; modify (set_boom_model (Some m))
   | Some _ => ret ()
   end);;
  let data := match data with DataFrame values => values | Array v => v end in
  let '(warned, cast) := Np.astype to_int cast_warns 0%Z data in
  (if warned
   then modify (λ s, set_terminal (runtime_warning (terminal s)) s)
   else ret ());;
  data ← lift cast;
  trials ← lift (Np.column 0 data);
  successes ← lift (Np.column 1 data);
  counts ← lift (Np.column 2 data);
  s ← get;
  m ← lift (the_model s);
  let '(r, m') := model_add_data m trials successes counts in
  modify (set_boom_model (Some m'));; lift r.

Definition _create_storage (niter : Z) : M () :=
  s ← get;
  for_each (seq 0 (length (_components s))) (λ c,
    draws ← lift (Np.empty refused junk niter 2);
    modify (λ s, set_components
                   (alter (<["draws" := VArray draws]>) c (_components s)) s));;
  s ← get;
  w ← lift (Np.empty refused junk niter (number_of_mixture_components s));
  modify (set_mixing_weights (Some (Some w))).

Definition _record_draw (i : nat) : M () :=
  s ← get;
  for_each (seq 0 (length (_components s))) (λ c,
    s ← get;
    match _components s !! c with
    | None => ret ()
    | Some component =>
        m ← lift (the_model s);
        va ← lift (component_a m c);
        vb ← lift (component_b m c);
        draws ← lift (dict_getitem component "draws" ≫= as_array);
        draws ← lift (Np.set_row i [va; vb] draws);
        modify (set_components
                  (<[c := <["draws" := VArray draws]> component]>
                     (_components s)))
    end);;
  s ← get;
  m ← lift (the_model s);
  probs ← lift (mixing_probs m);
  w ← lift (the_mixing_weights s);
  w ← lift (Np.set_row i probs w);
  modify (set_mixing_weights (Some (Some w))).

(** The loop of [mcmc], from the allocation of storage on. *)
Definition sampling_loop (niter : Z) (ping seed : option Z) : M () :=
  _create_storage niter;;
  (match seed with
   | Some z => modify (λ s, set_rng (seed_rng z (rng s)) s)
   | None => ret ()
   end);;
  for_each (seq 0 (Z.to_nat niter)) (λ i,
    modify (λ s, set_terminal (report_progress i ping (terminal s)) s);;
    s ← get;
    m ← lift (the_model s);
    let '(r, (g, m')) := sample_posterior (rng s) m in
    modify (λ s, set_rng g (set_boom_model (Some m') s));;
    lift r;;
    _record_draw i).

Definition no_data_warning : string :=
  "Running MCMC on a model with no data assigned.".

Definition mcmc (niter : Z) (ping seed : option Z) : M () :=
  s ← get;
  (match _boom_model s with
   | None =>
       m ← _build_boom_model;
       modify (set_boom_model (Some m));;
       modify (warn no_data_warning)
   | Some _ => ret ()
   end);;
  sampling_loop niter ping seed.

(** *** Properties *)

Definition niter (self : state) : result nat :=
  match _mixing_weights self with
  | None => Raise AttributeError
  | Some None => Ok 0
  | Some (Some w) => Ok (Np.nrows w)
  end.

(** A component dictionary subscripted with [[:, j]]: the subscript is
    not a key a dictionary can hold. *)
Definition component_getitem_slice (component : gmap string value)
    (j : nat) : result (list float) :=
  Raise TypeError.

Definition a (self : state) : result (Np.ndarray float) :=
  n ← niter self;
  ans ← Np.empty refused junk (Z.of_nat n)
          (number_of_mixture_components self);
  foldM (λ ans i,
           component ← list_getitem (_components self) (KStr "draws");
           col ← component_getitem_slice component 0;
           Np.set_column i col ans)
        ans (seq 0 (number_of_mixture_components self)).

Definition b (self : state) : result (Np.ndarray float) :=
  n ← niter self;
  ans ← Np.empty refused junk (Z.of_nat n)
          (number_of_mixture_components self);
  foldM (λ ans i,
           component ← list_getitem (_components self) (KStr "draws");
           col ← component_getitem_slice component 1;
           Np.set_column i col ans)
        ans (seq 0 (number_of_mixture_components self)).

Definition means (self : state) : result (Np.ndarray float) :=
  va ← a self;
  vb ← b self;
  s ← Np.map2 fadd va vb;
  Np.map2 fdiv va s.

Definition sample_sizes (self : state) : result (Np.ndarray float) :=
  va ← a self;
  vb ← b self;
  Np.map2 fadd va vb.

Definition mixing_weights (self : state)
  : result (option (Np.ndarray float)) :=
  match _mixing_weights self with
  | None => Raise AttributeError
  | Some v => Ok v
  end.

(** *** Callers

    A caller is a sequence of method calls on one object; a call that
    raises leaves the object as it was when the exception escaped, and
    the caller may go on using it. *)
Inductive call :=
| AddComponent (mean_prior sample_size_prior : Prior) (prior_count : float)
| AddData (data : table)
| Mcmc (niter : Z) (ping seed : option Z).

Definition perform (c : call) : M () :=
  match c with
  | AddComponent mean_prior sample_size_prior prior_count =>
      add_component mean_prior sample_size_prior prior_count
  | AddData data => add_data data
  | Mcmc niter ping seed => mcmc niter ping seed
  end.

Definition after (calls : list call) (s : state) : state :=
  foldl (λ s c, exec (perform c) s) s calls.

Definition is_add_component (c : call) : bool :=
  match c with AddComponent _ _ _ => true | _ => false end.

Definition is_mcmc (c : call) : bool :=
  match c with Mcmc _ _ _ => true | _ => false end.

(** How many of the calls are [add_component] calls. *)
Definition add_component_calls (calls : list call) : nat :=
  length (List.filter is_add_component calls).

(** How many of the calls are [mcmc] calls. *)
Definition mcmc_calls (calls : list call) : nat :=
  length (List.filter is_mcmc calls).

End Driver.
End BetaBinomialMixture.

(** ** The properties under study *)

Module Properties.
Section Properties.
Context `{Boom}.
Import BetaBinomialMixture.

(** A property read returned an array without elements. *)
Definition yields_empty (r : result (Np.ndarray float)) : Prop :=
  ∃ m, r = Ok m ∧ Np.size m = 0.

(** A property read returned an array of the given shape. *)
Definition yields_shape (r : result (Np.ndarray float)) (n k : nat) : Prop :=
  ∃ m, r = Ok m ∧ Np.shape m = (n, k).

(** Before sampling, as the specification words it: [niter] is zero and
    each of the five draw matrices is an empty container. *)
Definition empty_before_sampling (s : state) : Prop :=
  niter s = Ok 0 ∧
  yields_empty (a s) ∧ yields_empty (b s) ∧
  yields_empty (means s) ∧ yields_empty (sample_sizes s) ∧
  ∃ w, mixing_weights s = Ok (Some w) ∧ Np.size w = 0.

(** After [mcmc(niter=N)], as the specification words it. *)
Definition shaped_after_sampling (n : nat) (s : state) : Prop :=
  let k := number_of_mixture_components s in
  niter s = Ok n ∧
  yields_shape (a s) n k ∧ yields_shape (b s) n k ∧
  yields_shape (means s) n k ∧ yields_shape (sample_sizes s) n k ∧
  ∃ w, mixing_weights s = Ok (Some w) ∧ Np.shape w = (n, k).

(** The derived matrices, as the specification words them: [means] is
    [a / (a + b)] and [sample_sizes] is [a + b], cell by cell. *)
Definition derived_from_draws (s : state) : Prop :=
  ∃ va vb vm vs,
    a s = Ok va ∧ b s = Ok vb ∧ means s = Ok vm ∧ sample_sizes s = Ok vs ∧
    Np.shape vm = Np.shape va ∧ Np.shape vs = Np.shape va ∧
    ∀ i j, i < Np.nrows va → j < Np.ncols va →
      Np.cell vs i j = fadd (Np.cell va i j) (Np.cell vb i j) ∧
      Np.cell vm i j =
        fdiv (Np.cell va i j) (fadd (Np.cell va i j) (Np.cell vb i j)).

(** The draw tables [_create_storage] allocates: one per component, and
    the table of mixing weights. *)
Definition component_draws (c : gmap string value)
  : option (Np.ndarray float) :=
  match c !! "draws" with
  | Some (VArray d) => Some d
  | _ => None
  end.

Definition draw_tables (s : state) : list (Np.ndarray float) :=
  omap component_draws (_components s) ++
  match _mixing_weights s with
  | Some (Some w) => [w]
  | _ => []
  end.

(** The data-model invariant as the specification words it: as many
    prior counts as components, and as many columns in every draw table. *)
Definition parallel_and_columns (s : state) : Prop :=
  length (_mixing_distribution_prior_counts s) = length (_components s) ∧
  ∀ t, t ∈ draw_tables s → Np.ncols t = length (_components s).

(** The invariant the class maintains: the two lists are parallel, the
    mixing weight table is as wide as there are components, and each
    component's table has the two columns (a, b). *)
Definition storage_invariant (s : state) : Prop :=
  length (_mixing_distribution_prior_counts s) = length (_components s) ∧
  (∀ w, _mixing_weights s = Some (Some w) →
        Np.ncols w = length (_components s)) ∧
  (∀ c d, c ∈ _components s → c !! "draws" = Some (VArray d) →
          Np.ncols d = 2).

(** A component holds a draw table with [n] rows. *)
Definition has_rows (n : Z) (c : gmap string value) : Prop :=
  ∃ d, c !! "draws" = Some (VArray d) ∧ Z.of_nat (Np.nrows d) = n.

(** Every table of the draw storage is allocated and has [n] rows. *)
Definition storage_rows (n : Z) (s : state) : Prop :=
  (∀ c, c ∈ _components s →
        ∃ d, c !! "draws" = Some (VArray d) ∧ Z.of_nat (Np.nrows d) = n) ∧
  ∃ w, _mixing_weights s = Some (Some w) ∧ Z.of_nat (Np.nrows w) = n.

(** The storage one sampling run writes into: every component holds a
    draw table of [n] rows and two columns, and the mixing weights are an
    [n] by [k] table. *)
Definition storage_shaped (n k : nat) (s : state) : Prop :=
  (∀ j c, _components s !! j = Some c →
          ∃ d, c !! "draws" = Some (VArray d) ∧ Np.shape d = (n, 2)) ∧
  ∃ w, _mixing_weights s = Some (Some w) ∧ Np.shape w = (n, k).

(** [s'] is [s] but for what its components hold and for its mixing
    weights. *)
Definition only_storage (s s' : state) : Prop :=
  ∃ comps w, length comps = length (_components s) ∧
             s' = set_mixing_weights w (set_components comps s).

(** A component record as the specification words its immutability:
    the record found at an index is the very same afterwards. *)
Definition records_unchanged (s s' : state) : Prop :=
  ∀ i c, _components s !! i = Some c → _components s' !! i = Some c.

(** What the class keeps of a component record: the two priors, every
    field it had, and no new field other than its draw table. *)
Definition same_spec (c c' : gmap string value) : Prop :=
  c' !! "mean_prior" = c !! "mean_prior" ∧
  c' !! "sample_size_prior" = c !! "sample_size_prior" ∧
  dom c ⊆ dom c' ∧ dom c' ⊆ dom c ∪ {["draws"]}.

Definition keeps_components (s s' : state) : Prop :=
  ∀ i c, _components s !! i = Some c →
         ∃ c', _components s' !! i = Some c' ∧ same_spec c c'.

(** How a call other than [add_component] may change the object: the
    prior counts stay, no component comes or goes, each keeps its
    specification, and an assigned [_mixing_weights] stays assigned. *)
Definition evolves (s s' : state) : Prop :=
  _mixing_distribution_prior_counts s' = _mixing_distribution_prior_counts s ∧
  length (_components s') = length (_components s) ∧
  (_mixing_weights s' = None → _mixing_weights s = None) ∧
  keeps_components s s'.

(** An object that has components has had [_mixing_weights] assigned. *)
Definition weights_assigned (s : state) : Prop :=
  _mixing_weights s = None → _mixing_distribution_prior_counts s = [].

(** The table of an [add_data] call, and whether a cell of it converts
    to a negative integer. *)
Definition values_of (t : table) : Np.ndarray scalar :=
  match t with DataFrame v => v | Array v => v end.

Definition has_negative_entry (t : table) : Prop :=
  ∃ i j z, i < Np.nrows (values_of t) ∧ j < Np.ncols (values_of t) ∧
           to_int (Np.cell (values_of t) i j) = Ok z ∧ (z < 0)%Z.

Definition malformed (t : table) : Prop :=
  Np.ncols (values_of t) ≠ 3 ∨ has_negative_entry t.

(** [add_data] as the specification words its failure semantics: a
    malformed table raises a type or validation error and the engine
    model is left as it was before the data would have been passed on. *)
Definition rejected_at_boundary (t : table) (s : state) : Prop :=
  (∃ e, eval (add_data t) s = Raise e ∧
        (e = TypeError ∨ e = ValueError ∨ e = IndexError)) ∧
  ∀ m m', _boom_model s = Some m →
          _boom_model (exec (add_data t) s) = Some m' → m' = m.

(** The model an [add_data] or [mcmc] call works on: the one the object
    holds, or the one it builds when it holds none. *)
Definition model_in_use (s : state) (m : Model) : Prop :=
  match _boom_model s with
  | Some m' => m' = m
  | None => eval _build_boom_model s = Ok m
  end.

Definition column_of (d : Np.ndarray Z) (j : nat) : list Z :=
  (λ i, Np.cell d i j) <$> seq 0 (Np.nrows d).

(** The engine state after [n] sweeps of [sample_posterior]. *)
Fixpoint sweeps (n : nat) (g : Rng) (m : Model) : Rng * Model :=
  match n with
  | 0 => (g, m)
  | S n' => let '(_, (g', m')) := sample_posterior g m in sweeps n' g' m'
  end.

Definition is_ok {A} (r : result A) : bool :=
  match r with Ok _ => true | Raise _ => false end.

(** The engine goes through [n] sweeps without raising, and after each
    one hands out (a, b) for [comps] components and a probability
    vector that fits a row of width [width]. *)
Fixpoint engine_cooperates (comps width n : nat) (g : Rng) (m : Model)
  : bool :=
  match n with
  | 0 => true
  | S n' =>
      match sample_posterior g m with
      | (Ok _, (g', m')) =>
          forallb (λ c, is_ok (component_a m' c) && is_ok (component_b m' c))
                  (seq 0 comps)
          && match mixing_probs m' with
             | Ok p => bool_decide (length p = width ∨ length p = 1)
             | Raise _ => false
             end
          && engine_cooperates comps width n' g' m'
      | (Raise _, _) => false
      end
  end.

Definition seeded (seed : option Z) (g : Rng) : Rng :=
  match seed with Some z => seed_rng z g | None => g end.

(** [np.empty((n, k))] returns an array. *)
Definition allocates (n : Z) (k : nat) : bool :=
  is_ok (Np.empty refused junk n k).

(** numpy can allocate the storage of a run of [n] iterations on [s]: a
    table of [n] rows and two columns if there is a component, and a
    table of [n] rows and one column per component. *)
Definition storage_fits (n : Z) (s : state) : bool :=
  match _components s with
  | [] => true
  | _ :: _ => allocates n 2
  end && allocates n (number_of_mixture_components s).

(** The table of mixing weights, when allocated, has a shape [np.empty]
    allocates. *)
Definition weights_allocated (s : state) : Prop :=
  ∀ w, _mixing_weights s = Some (Some w) →
       allocates (Z.of_nat (Np.nrows w)) (Np.ncols w) = true.

End Properties.
End Properties.

(** ** A small engine to run the class on

    Floats and table cells are integers, priors carry no information, the
    model remembers how many components it was built with, the records it
    was given and how many sweeps it has made. *)

Module Toy.

Record model := mk_model {
  width : nat;
  records : list (Z * Z * Z);
  swept : nat
}.

(** Memory for 2^20 cells. *)
Definition no_room (n k : nat) : option exn :=
  if (2 ^ 20 <? Z.of_nat n * Z.of_nat k)%Z then Some MemoryError else None.

Definition numpy : Numpy := {|
  float := Z;
  fadd := Z.add;
  fdiv := Z.div;
  junk := λ _ _, 0%Z;
  refused := no_room;
  scalar := Z;
  to_int := Ok;
  cast_warns := λ _, false
|}.

Fixpoint zip3 (xs ys zs : list Z) : list (Z * Z * Z) :=
  match xs, ys, zs with
  | x :: xs', y :: ys', z :: zs' => (x, y, z) :: zip3 xs' ys' zs'
  | _, _, _ => []
  end.

Definition shape_a (m : model) (c : nat) : result Z :=
  if decide (c < width m) then Ok (Z.of_nat (swept m + c))
  else Raise (EngineError 1).

Definition shape_b (m : model) (c : nat) : result Z :=
  if decide (c < width m) then Ok 1%Z else Raise (EngineError 1).

Definition add_records (m : model) (xs ys zs : list Z) : result () * model :=
  (Ok (), mk_model (width m) (records m ++ zip3 xs ys zs) (swept m)).

Definition sweep (g : Z) (m : model) : result () * (Z * model) :=
  (Ok (), ((g + 1)%Z, mk_model (width m) (records m) (S (swept m)))).

(** The terminal lists what was written: [Some i] for the progress line
    of iteration [i], [None] for a warning of numpy. A progress line is
    written when [ping] is positive and divides the iteration. *)
Definition report (i : nat) (ping : option Z) (t : list (option nat))
  : list (option nat) :=
  match ping with
  | Some p => if ((0 <? p) && (Z.of_nat i mod p =? 0))%Z
              then t ++ [Some i] else t
  | None => t
  end.

Definition boom : @Boom numpy :=
  @Build_Boom numpy
    (* Prior, MixingDistribution, ComponentModel, Model, Rng *)
    () nat () model Z
    (* mixing_distribution *) (λ counts, Ok (length counts))
    (* component_model *) (λ _ _, Ok ())
    (* mixture_model *) (λ _ k, Ok (mk_model k [] 0))
    (* model_add_data *) add_records
    (* sample_posterior *) sweep
    (* component_a, component_b *) shape_a shape_b
    (* mixing_probs *) (λ m, Ok (replicate (width m) 1%Z))
    (* seed_rng *) (λ z _, z)
    (* Terminal, quiet *) (list (option nat)) []
    (* report_progress *) report
    (* runtime_warning *) (λ t, t ++ [None]).

Definition state : Type := @BetaBinomialMixture.state numpy boom.
Definition call : Type := @BetaBinomialMixture.call numpy boom.

(** A fresh object. *)
Definition fresh : state := @BetaBinomialMixture.__init__ numpy boom 0%Z.

Definition one_component : call :=
  @BetaBinomialMixture.AddComponent numpy boom () () 1%Z.

Definition sample (n : Z) : call :=
  @BetaBinomialMixture.Mcmc numpy boom n None None.

(** One component added, nothing else. *)
Definition configured : state :=
  @BetaBinomialMixture.after numpy boom [one_component] fresh.

(** One component added, one iteration sampled. *)
Definition sampled : state :=
  @BetaBinomialMixture.after numpy boom [one_component; sample 1] fresh.

Definition rows_table (rows : list (list Z)) (k : nat) : Np.ndarray Z :=
  Np.mk_ndarray (length rows) k
    (λ i j, default 0%Z (rows !! i ≫= λ r, r !! j)).

(** 10 trials, -4 successes, 28 cases. *)
Definition negative_table : @BetaBinomialMixture.table numpy :=
  @BetaBinomialMixture.Array numpy (rows_table [[10; -4; 28]%Z] 3).

(** A table with a fourth column. *)
Definition wide_table : @BetaBinomialMixture.table numpy :=
  @BetaBinomialMixture.Array numpy (rows_table [[10; 4; 28; 7]%Z] 4).

(** A table with two columns only. *)
Definition narrow_table : @BetaBinomialMixture.table numpy :=
  @BetaBinomialMixture.Array numpy (rows_table [[10; 4]%Z] 2).

End Toy.

(** ** What a run records, and what calls leave alone *)

Module Behaviour.
Section Behaviour.
Context `{Boom}.
Import BetaBinomialMixture Properties.

(** The arguments of the [add_component] calls, in call order. *)
Fixpoint added (calls : list call) : list (Prior * Prior * float) :=
  match calls with
  | [] => []
  | AddComponent mean_prior sample_size_prior prior_count :: rest =>
      (mean_prior, sample_size_prior, prior_count) :: added rest
  | _ :: rest => added rest
  end.

(** The engine model of a list of component specifications: what
    [_build_boom_model] asks of the engine, on the specifications
    themselves. *)
Definition model_of (specs : list (Prior * Prior * float)) : result Model :=
  mixing ← mixing_distribution (specs.*2);
  boom_components ← mapM (λ spec, component_model spec.1.1 spec.1.2) specs;
  mixture_model boom_components mixing.

(** A component record holds the priors of a specification. *)
Definition holds_spec (c : gmap string value)
    (spec : Prior * Prior * float) : Prop :=
  c !! "mean_prior" = Some (VPrior spec.1.1) ∧
  c !! "sample_size_prior" = Some (VPrior spec.1.2).

(** The object is the one built from these specifications: its records
    hold their priors and its prior counts are theirs, in order. *)
Definition built_from (specs : list (Prior * Prior * float)) (s : state)
  : Prop :=
  Forall2 holds_spec (_components s) specs ∧
  _mixing_distribution_prior_counts s = specs.*2.

(** What numpy stores in column [j] of a row of width [k] assigned from
    the sequence [p]: its [j]-th element, or its only element when it is
    broadcast. *)
Definition stored {A} (k : nat) (p : list A) (j : nat) : option A :=
  if decide (length p = k) then p !! j else head p.

(** Row [i] of the draw storage holds what the model [m] hands out: the
    (a, b) of each component in its draw table, the mixing probabilities
    in the table of mixing weights. *)
Definition row_recorded (k : nat) (m : Model) (i : nat) (s : state) : Prop :=
  (∀ c comp d, _components s !! c = Some comp →
               comp !! "draws" = Some (VArray d) →
               component_a m c = Ok (Np.cell d i 0) ∧
               component_b m c = Ok (Np.cell d i 1)) ∧
  (∀ w j, _mixing_weights s = Some (Some w) → j < k →
          ∃ p, mixing_probs m = Ok p ∧ stored k p j = Some (Np.cell w i j)).

(** From [s] to [s'] no row other than row [i] of a draw table changed. *)
Definition rows_kept (i : nat) (s s' : state) : Prop :=
  (∀ c comp' d', _components s' !! c = Some comp' →
                 comp' !! "draws" = Some (VArray d') →
                 ∃ comp d, _components s !! c = Some comp ∧
                           comp !! "draws" = Some (VArray d) ∧
                           ∀ r j, r ≠ i → Np.cell d' r j = Np.cell d r j) ∧
  (∀ w', _mixing_weights s' = Some (Some w') →
         ∃ w, _mixing_weights s = Some (Some w) ∧
              ∀ r j, r ≠ i → Np.cell w' r j = Np.cell w r j).

(** The storage after a run of [n] sweeps from the engine state [(g, m)]:
    tables of [n] rows, row [i] holding the draw of sweep [i + 1]. *)
Definition draws_recorded (n k : nat) (g : Rng) (m : Model) (s : state)
  : Prop :=
  storage_shaped n k s ∧
  ∀ i, i < n → row_recorded k (sweeps (S i) g m).2 i s.

(** [s'] is [s] in every attribute of the object but the engine model it
    holds. *)
Definition same_but_model (s s' : state) : Prop :=
  _components s' = _components s ∧
  _mixing_distribution_prior_counts s' = _mixing_distribution_prior_counts s ∧
  _mixing_weights s' = _mixing_weights s.

(** The terminal after the progress reports of iterations [0] to
    [n - 1], in order. *)
Definition reported (n : nat) (ping : option Z) (t : Terminal) : Terminal :=
  foldl (λ t i, report_progress i ping t) t (seq 0 n).

(** [m'] is the model [m] after calls of its own methods: [add_data]
    and [sample_posterior]. *)
Inductive advanced (m : Model) : Model → Prop :=
| advanced_refl : advanced m m
| advanced_add_data m' xs ys zs :
    advanced m m' → advanced m (model_add_data m' xs ys zs).2
| advanced_sample m' g :
    advanced m m' → advanced m (sample_posterior g m').2.2.

(** The object holds the model [m], advanced, and the class has passed
    [ws] to [warnings.warn]. *)
Definition model_advanced (m : Model) (ws : list string) (s : state) : Prop :=
  (∃ m', _boom_model s = Some m' ∧ advanced m m') ∧ warnings s = ws.

(** The object holds a model and has issued the warnings [ws]. *)
Definition model_held (ws : list string) (s : state) : Prop :=
  is_Some (_boom_model s) ∧ warnings s = ws.

(** The object as [mcmc] leaves it before it allocates storage: holding
    the model in use [m], having warned if it held none. *)
Definition primed (m : Model) (s : state) : state :=
  match _boom_model s with
  | Some _ => s
  | None => warn no_data_warning (set_boom_model (Some m) s)
  end.

End Behaviour.
End Behaviour.

(** ** More runs on the small engine *)

Module ToyRuns.

(** The table of the docstring of [add_data]. *)
Definition counts_table : @BetaBinomialMixture.table Toy.numpy :=
  @BetaBinomialMixture.DataFrame Toy.numpy
    (Toy.rows_table [[10; 4; 28]; [5; 0; 2]]%Z 3).

Definition add (t : @BetaBinomialMixture.table Toy.numpy) : Toy.call :=
  @BetaBinomialMixture.AddData Toy.numpy Toy.boom t.

(** One component, data added (the model is built with one component),
    then a second component added. *)
Definition outgrown : Toy.state :=
  @BetaBinomialMixture.after Toy.numpy Toy.boom
    [Toy.one_component; add counts_table; Toy.one_component] Toy.fresh.

(** Two components and data. *)
Definition with_data : Toy.state :=
  @BetaBinomialMixture.after Toy.numpy Toy.boom
    [Toy.one_component; Toy.one_component; add counts_table] Toy.fresh.

End ToyRuns.

(** ** Reasoning about method calls *)

Module Logic.
Section Logic.
Context `{Boom}.
Import BetaBinomialMixture.

Lemma wp_ret {A} (x : A) Q s : Q (Ok x) s → wp (mret x) Q s.
Proof. done. Qed.

Lemma wp_get Q s : Q (Ok s) s → wp get Q s.
Proof. done. Qed.

Lemma wp_modify f Q s : Q (Ok ()) (f s) → wp (modify f) Q s.
Proof. done. Qed.

Lemma wp_lift {A} (r : result A) Q s : Q r s → wp (lift r) Q s.
Proof. done. Qed.

Lemma wp_bind {A B} (m : M A) (k : A → M B) Q s :
  wp m (λ r s', match r with
                | Ok x => wp (k x) Q s'
                | Raise e => Q (Raise e) s'
                end) s →
  wp (m ≫= k) Q s.
Proof.
  unfold wp, eval, exec, mbind, M_bind, bind.
  by destruct (m s) as [[x|e] s'].
Qed.

Lemma wp_mono {A} (m : M A) (Q Q' : result A → state → Prop) s :
  wp m Q s → (∀ r s', Q r s' → Q' r s') → wp m Q' s.
Proof. unfold wp. auto. Qed.

(** The loop rule: [I] is told what is left to iterate over, [E] is what
    holds if the body raises. *)
Lemma wp_for_each {X} (I : list X → state → Prop) (E : exn → state → Prop)
    (xs : list X) (body : X → M ()) s :
  I xs s →
  (∀ x rest s, I (x :: rest) s →
     wp (body x) (λ r s', match r with
                          | Ok _ => I rest s'
                          | Raise e => E e s'
                          end) s) →
  wp (for_each xs body)
     (λ r s', match r with Ok _ => I [] s' | Raise e => E e s' end) s.
Proof.
  intros HI Hbody. revert s HI.
  induction xs as [|x xs IH]; intros s HI; [done|].
  cbn [for_each]. apply wp_bind.
  eapply wp_mono; [by apply Hbody|].
  intros [[]|e] s' Hs'; [by apply IH | done].
Qed.

(** A loop whose body keeps [P], whether it raises or not. *)
Lemma wp_for_each_inv {X} (P : state → Prop) (xs : list X)
    (body : X → M ()) s :
  P s →
  (∀ x s, P s → wp (body x) (λ _ s', P s') s) →
  wp (for_each xs body) (λ _ s', P s') s.
Proof.
  intros HP Hbody.
  eapply wp_mono.
  - apply (wp_for_each (λ _, P) (λ _, P)); [done|].
    intros x _ s0 HP0. eapply wp_mono; [by apply Hbody|]. by intros [|].
  - by intros [|].
Qed.


(** The loop rule for [for i in range(...)]: [I] is told the index the
    loop has reached. *)
Lemma wp_for_range (I : nat → state → Prop) (E : exn → state → Prop)
    (body : nat → M ()) (i0 n : nat) s :
  I i0 s →
  (∀ i s, i0 ≤ i < i0 + n → I i s →
     wp (body i) (λ r s', match r with
                          | Ok _ => I (S i) s'
                          | Raise e => E e s'
                          end) s) →
  wp (for_each (seq i0 n) body)
     (λ r s', match r with Ok _ => I (i0 + n) s' | Raise e => E e s' end) s.
Proof.
  revert i0 s. induction n as [|n IH]; intros i0 s HI Hbody.
  - cbn. by rewrite Nat.add_0_r.
  - cbn [seq for_each]. apply wp_bind.
    eapply wp_mono; [apply Hbody; [lia|done]|].
    intros [[]|e] s' Hs'; [|done].
    replace (i0 + S n) with (S i0 + n) by lia.
    apply IH; [done|]. intros i s1 Hi. apply Hbody. lia.
Qed.

(** Building the engine model reads the object and changes nothing. *)
Lemma build_boom_model_pure s Q :
  Q (eval _build_boom_model s) s → wp _build_boom_model Q s.
Proof.
  unfold wp, eval, exec, _build_boom_model, mbind, M_bind, bind, get, lift.
  cbn. repeat case_match; by simplify_eq/=.
Qed.

End Logic.
End Logic.

(** Symbolic execution of one step of a method body. *)
Ltac wp_step :=
  lazymatch goal with
  | |- BetaBinomialMixture.wp (_ ≫= _) _ _ => apply Logic.wp_bind
  | |- BetaBinomialMixture.wp (mret _) _ _ => apply Logic.wp_ret
  | |- BetaBinomialMixture.wp (BetaBinomialMixture.ret _) _ _ =>
      apply Logic.wp_ret
  | |- BetaBinomialMixture.wp BetaBinomialMixture.get _ _ =>
      apply Logic.wp_get
  | |- BetaBinomialMixture.wp (BetaBinomialMixture.modify _) _ _ =>
      apply Logic.wp_modify
  | |- BetaBinomialMixture.wp (BetaBinomialMixture.lift _) _ _ =>
      apply Logic.wp_lift
  | |- BetaBinomialMixture.wp (match ?x with _ => _ end) _ _ =>
      destruct x eqn:?
  | |- match ?r with Ok _ => _ | Raise _ => _ end => destruct r eqn:?
  | |- BetaBinomialMixture.wp (let '(_, _) := ?p in _) _ _ =>
      destruct p eqn:?
  end; cbv beta iota.

(** Symbolic execution as far as the steps above go. *)
Ltac wp_run :=
  repeat first [apply Logic.build_boom_model_pure; cbv beta iota | wp_step].

(** ** What the calls leave alone *)

Module Frame.
Section Frame.
Context `{Boom}.
Import BetaBinomialMixture Properties Logic.

Lemma same_spec_refl c : same_spec c c.
Proof. unfold same_spec. repeat split; [done|apply union_subseteq_l]. Qed.

Lemma same_spec_trans c1 c2 c3 :
  same_spec c1 c2 → same_spec c2 c3 → same_spec c1 c3.
Proof.
  intros (Hm & Hs & Hsub & Hsup) (Hm' & Hs' & Hsub' & Hsup').
  repeat split.
  - by rewrite Hm'.
  - by rewrite Hs'.
  - by etrans.
  - etrans; [done|]. apply union_least; [done|apply union_subseteq_r].
Qed.

Lemma same_spec_draws (c : gmap string value) v :
  same_spec c (<["draws" := v]> c).
Proof.
  unfold same_spec. rewrite !lookup_insert_ne, dom_insert_L by done.
  repeat split.
  - apply union_subseteq_r.
  - by rewrite (comm_L (∪)).
Qed.

Lemma keeps_components_refl s : keeps_components s s.
Proof. intros i c Hc. eauto using same_spec_refl. Qed.

Lemma keeps_components_trans s1 s2 s3 :
  keeps_components s1 s2 → keeps_components s2 s3 → keeps_components s1 s3.
Proof.
  intros H12 H23 i c Hc.
  destruct (H12 i c Hc) as (c2 & Hc2 & ?).
  destruct (H23 i c2 Hc2) as (c3 & Hc3 & ?).
  eauto using same_spec_trans.
Qed.

Lemma evolves_refl s : evolves s s.
Proof. unfold evolves. auto using keeps_components_refl. Qed.

Lemma evolves_trans s1 s2 s3 : evolves s1 s2 → evolves s2 s3 → evolves s1 s3.
Proof.
  intros (Hc & Hl & Hw & Hk) (Hc' & Hl' & Hw' & Hk').
  repeat split.
  - by rewrite Hc'.
  - by rewrite Hl'.
  - auto.
  - eauto using keeps_components_trans.
Qed.

(** Storing a draw table in the component at [c]. *)
Lemma evolves_alter_draws s c v :
  evolves s (set_components
               (alter (<["draws" := v]>) c (_components s)) s).
Proof.
  unfold evolves; cbn. rewrite length_alter. repeat split; [done|].
  intros i comp Hi; cbn. rewrite list_lookup_alter.
  case_decide; subst; rewrite Hi; cbn;
    eauto using same_spec_refl, same_spec_draws.
Qed.

Lemma evolves_insert_draws s c component v :
  _components s !! c = Some component →
  evolves s (set_components
               (<[c := <["draws" := v]> component]> (_components s)) s).
Proof.
  intros Hc. unfold evolves; cbn. rewrite length_insert.
  repeat split; [done|].
  intros i comp Hi; cbn. destruct (decide (c = i)) as [->|].
  - rewrite list_lookup_insert_eq by eauto using lookup_lt_Some.
    simplify_eq. eauto using same_spec_draws.
  - rewrite list_lookup_insert_ne by done. eauto using same_spec_refl.
Qed.

#[local] Ltac evolves_field :=
  repeat split; try done; intros i c Hc; cbn; eauto using same_spec_refl.

Lemma evolves_set_boom_model s v : evolves s (set_boom_model v s).
Proof. evolves_field. Qed.

Lemma evolves_set_rng s v : evolves s (set_rng v s).
Proof. evolves_field. Qed.

Lemma evolves_warn s msg : evolves s (warn msg s).
Proof. evolves_field. Qed.

Lemma evolves_set_terminal s v : evolves s (set_terminal v s).
Proof. evolves_field. Qed.

Lemma evolves_set_mixing_weights s w :
  evolves s (set_mixing_weights (Some w) s).
Proof. evolves_field. Qed.

Create HintDb evolves.
Hint Resolve evolves_refl evolves_alter_draws evolves_insert_draws
  evolves_set_boom_model evolves_set_rng evolves_warn evolves_set_terminal
  evolves_set_mixing_weights : evolves.

#[local] Ltac evolves_leaf :=
  lazymatch goal with
  | |- wp _ _ _ => fail
  | |- _ => first [ done
                  | eapply evolves_trans;
                    [eassumption|]; solve [eauto with evolves] ]
  end.

Lemma add_data_evolves_from t s0 s :
  evolves s0 s → wp (add_data t) (λ _ s', evolves s0 s') s.
Proof. intros Hs. unfold add_data. wp_run; evolves_leaf. Qed.

Lemma create_storage_evolves_from n s0 s :
  evolves s0 s → wp (_create_storage n) (λ _ s', evolves s0 s') s.
Proof.
  intros Hs. unfold _create_storage. wp_step. wp_step. wp_step.
  eapply wp_mono.
  - apply (wp_for_each_inv (evolves s0)); [done|].
    intros c s1 Hs1. wp_run; evolves_leaf.
  - intros [|]; cbv beta iota; intros s1 Hs1; wp_run; evolves_leaf.
Qed.

Lemma record_draw_evolves_from i s0 s :
  evolves s0 s → wp (_record_draw i) (λ _ s', evolves s0 s') s.
Proof.
  intros Hs. unfold _record_draw. wp_step. wp_step. wp_step.
  eapply wp_mono.
  - apply (wp_for_each_inv (evolves s0)); [done|].
    intros c s1 Hs1. wp_run; evolves_leaf.
  - intros [|]; cbv beta iota; intros s1 Hs1; wp_run; evolves_leaf.
Qed.

Lemma sampling_loop_evolves_from n ping seed s0 s :
  evolves s0 s → wp (sampling_loop n ping seed) (λ _ s', evolves s0 s') s.
Proof.
  intros Hs. unfold sampling_loop. wp_step.
  eapply wp_mono; [by apply create_storage_evolves_from|].
  intros [|] s1 Hs1; [|done].
  wp_step. eapply (wp_mono _ (λ _ s', evolves s0 s')).
  { destruct seed; wp_run; evolves_leaf. }
  intros [|] s2 Hs2; [|done].
  apply (wp_for_each_inv (evolves s0)); [done|].
  intros i s3 Hs3. wp_run; try evolves_leaf.
  all: apply record_draw_evolves_from.
  all: evolves_leaf.
Qed.

Lemma mcmc_evolves_from n ping seed s0 s :
  evolves s0 s → wp (mcmc n ping seed) (λ _ s', evolves s0 s') s.
Proof.
  intros Hs. unfold mcmc. wp_step. wp_step. wp_step.
  eapply (wp_mono _ (λ _ s', evolves s0 s')).
  { wp_run; evolves_leaf. }
  intros [|] s1 Hs1; [|done].
  by apply sampling_loop_evolves_from.
Qed.

Lemma add_data_evolves t s : evolves s (exec (add_data t) s).
Proof. apply (add_data_evolves_from t s s), evolves_refl. Qed.

Lemma mcmc_evolves n ping seed s : evolves s (exec (mcmc n ping seed) s).
Proof. apply (mcmc_evolves_from n ping seed s s), evolves_refl. Qed.

End Frame.
End Frame.

(** ** Sequences of calls *)

Module Calls.
Section Calls.
Context `{Boom}.
Import BetaBinomialMixture Properties Logic Frame.

Lemma after_nil s : after [] s = s.
Proof. done. Qed.

Lemma after_cons c calls s :
  after (c :: calls) s = after calls (exec (perform c) s).
Proof. done. Qed.

Lemma after_app calls1 calls2 s :
  after (calls1 ++ calls2) s = after calls2 (after calls1 s).
Proof. apply foldl_app. Qed.

(** A property every call keeps holds after any sequence of calls. *)
Lemma after_ind (P : state → Prop) :
  (∀ c s, P s → P (exec (perform c) s)) →
  ∀ calls s, P s → P (after calls s).
Proof.
  intros Hstep calls. induction calls as [|c calls IH]; intros s Hs; [done|].
  rewrite after_cons. by apply IH, Hstep.
Qed.

Lemma add_component_exec p q n s :
  exec (add_component p q n) s =
  mk_state
    (_components s ++
       [<["mean_prior" := VPrior p]>
          (<["sample_size_prior" := VPrior q]> ∅)])
    (_mixing_distribution_prior_counts s ++ [n])
    (_boom_model s) (Some None) (rng s) (warnings s) (terminal s).
Proof. done. Qed.

Lemma add_component_eval p q n s : eval (add_component p q n) s = Ok ().
Proof. done. Qed.

Lemma perform_keeps_components c s :
  keeps_components s (exec (perform c) s).
Proof.
  destruct c as [p q n|t|n ping seed]; cbn [perform].
  - rewrite add_component_exec. intros i c Hc; cbn.
    exists c. split; [by apply lookup_app_l_Some|apply same_spec_refl].
  - apply add_data_evolves.
  - apply mcmc_evolves.
Qed.

Lemma perform_counts c s :
  number_of_mixture_components (exec (perform c) s) =
  number_of_mixture_components s + (if is_add_component c then 1 else 0).
Proof.
  unfold number_of_mixture_components.
  destruct c as [p q n|t|n ping seed]; cbn [perform is_add_component].
  - rewrite add_component_exec; cbn. by rewrite length_app.
  - destruct (add_data_evolves t s) as [-> _]. lia.
  - destruct (mcmc_evolves n ping seed s) as [-> _]. lia.
Qed.

Lemma after_counts calls s :
  number_of_mixture_components (after calls s) =
  number_of_mixture_components s + add_component_calls calls.
Proof.
  revert s. induction calls as [|c calls IH]; intros s.
  - cbn. lia.
  - rewrite after_cons, IH, perform_counts. unfold add_component_calls.
    cbn [List.filter]. destruct (is_add_component c); cbn [length]; lia.
Qed.

Lemma perform_weights_assigned c s :
  weights_assigned s → weights_assigned (exec (perform c) s).
Proof.
  unfold weights_assigned.
  destruct c as [p q n|t|n ping seed]; cbn [perform]; intros Hs.
  - by rewrite add_component_exec.
  - destruct (add_data_evolves t s) as (-> & _ & Hw & _). auto.
  - destruct (mcmc_evolves n ping seed s) as (-> & _ & Hw & _). auto.
Qed.

Lemma reachable_weights_assigned r calls :
  weights_assigned (after calls (__init__ r)).
Proof. by apply after_ind; [apply perform_weights_assigned|]. Qed.

End Calls.
End Calls.

(** ** The draw matrices of an object with components *)

Module Draws.
Section Draws.
Context `{Boom}.
Import BetaBinomialMixture Properties.

(** What [np.empty] returns when it returns. *)
Lemma empty_Ok {A} (no : nat → nat → option exn) (j : nat → nat → A)
    (n : Z) (k : nat) m :
  Np.empty no j n k = Ok m →
  (0 ≤ n)%Z ∧ m = Np.mk_ndarray (Z.to_nat n) k j.
Proof.
  unfold Np.empty. destruct (Z.ltb_spec n 0); [done|].
  destruct (Z.to_nat n) as [|rows]; [by intros [= <-]|].
  destruct (no (S rows) k); [done|]. by intros [= <-].
Qed.

Lemma empty_shape {A} (no : nat → nat → option exn) (j : nat → nat → A)
    (n : Z) (k : nat) m :
  Np.empty no j n k = Ok m →
  (0 ≤ n)%Z ∧ Np.nrows m = Z.to_nat n ∧ Np.ncols m = k.
Proof. by intros [? ->]%empty_Ok. Qed.

Lemma allocates_Ok (n : Z) (k : nat) :
  allocates n k = true →
  Np.empty refused junk n k = Ok (Np.mk_ndarray (Z.to_nat n) k junk).
Proof.
  unfold allocates.
  destruct (Np.empty refused junk n k) as [m|] eqn:Hm; [|done].
  by apply empty_Ok in Hm as [_ ->].
Qed.

Lemma allocates_nonneg (n : Z) (k : nat) : allocates n k = true → (0 ≤ n)%Z.
Proof.
  unfold allocates.
  destruct (Np.empty refused junk n k) as [m|] eqn:Hm; [|done].
  by apply empty_Ok in Hm as [? _].
Qed.

(** An array without rows is always allocated. *)
Lemma allocates_no_rows (k : nat) : allocates 0 k = true.
Proof. done. Qed.

Lemma allocated_allocates (n : Z) (k : nat) m :
  Np.empty refused junk n k = Ok m →
  allocates (Z.of_nat (Np.nrows m)) (Np.ncols m) = true.
Proof.
  intros Hm. pose proof Hm as [Hn ->]%empty_Ok. cbn.
  rewrite Z2Nat.id by done. unfold allocates. by rewrite Hm.
Qed.

Lemma niter_assigned s :
  _mixing_weights s ≠ None → ∃ n, niter s = Ok n.
Proof. unfold niter. destruct (_mixing_weights s) as [[w|]|]; eauto. done. Qed.

(** The array [a] and [b] start from has the shape of the table of
    mixing weights, or no row: it is allocated. *)
Lemma answer_allocated s n :
  weights_allocated s →
  (∀ w, _mixing_weights s = Some (Some w) →
        Np.ncols w = number_of_mixture_components s) →
  niter s = Ok n →
  Np.empty refused junk (Z.of_nat n) (number_of_mixture_components s)
  = Ok (Np.mk_ndarray n (number_of_mixture_components s) junk).
Proof.
  intros Halloc Hcols Hn. rewrite <- (Nat2Z.id n) at 2. apply allocates_Ok.
  unfold niter in Hn. destruct (_mixing_weights s) as [[w|]|] eqn:Hw;
    simplify_eq; [|done].
  rewrite <- (Hcols w) by done. by apply Halloc.
Qed.

Lemma a_raises s :
  weights_allocated s →
  (∀ w, _mixing_weights s = Some (Some w) →
        Np.ncols w = number_of_mixture_components s) →
  _mixing_weights s ≠ None → 0 < number_of_mixture_components s →
  a s = Raise TypeError.
Proof.
  intros Halloc Hcols Hw Hk. unfold a.
  destruct (niter_assigned s Hw) as [n Hn]. rewrite Hn; cbn.
  rewrite (answer_allocated s n) by done; cbn.
  destruct (number_of_mixture_components s); [lia|done].
Qed.

Lemma b_raises s :
  weights_allocated s →
  (∀ w, _mixing_weights s = Some (Some w) →
        Np.ncols w = number_of_mixture_components s) →
  _mixing_weights s ≠ None → 0 < number_of_mixture_components s →
  b s = Raise TypeError.
Proof.
  intros Halloc Hcols Hw Hk. unfold b.
  destruct (niter_assigned s Hw) as [n Hn]. rewrite Hn; cbn.
  rewrite (answer_allocated s n) by done; cbn.
  destruct (number_of_mixture_components s); [lia|done].
Qed.

(** Without components the loop body never runs. *)
Lemma a_no_components s n :
  weights_allocated s →
  (∀ w, _mixing_weights s = Some (Some w) →
        Np.ncols w = number_of_mixture_components s) →
  niter s = Ok n → number_of_mixture_components s = 0 →
  a s = Ok (Np.mk_ndarray n 0 junk).
Proof.
  intros Halloc Hcols Hn Hk. unfold a. rewrite Hn; cbn.
  rewrite (answer_allocated s n) by done; cbn. by rewrite Hk.
Qed.

End Draws.
End Draws.

(** ** The draw storage *)

Module Storage.
Section Storage.
Context `{Boom}.
Import BetaBinomialMixture Properties Logic Frame Draws.

Lemma broadcast_to_Ok {A} (len : nat) (v : list A) :
  length v = len ∨ length v = 1 → ∃ src, Np.broadcast_to len v = Ok src.
Proof.
  unfold Np.broadcast_to. intros [?|Hone]; case_decide; eauto; try done.
  destruct v as [|x [|y v]]; eauto; done.
Qed.

Lemma set_row_Ok {A} (i : nat) (v : list A) (m m' : Np.ndarray A) :
  Np.set_row i v m = Ok m' →
  Np.nrows m' = Np.nrows m ∧ Np.ncols m' = Np.ncols m.
Proof.
  unfold Np.set_row. case_decide; [|done].
  destruct (Np.broadcast_to _ _); cbn; [|done]. by intros [= <-].
Qed.

Lemma set_row_fits {A} (i : nat) (v : list A) (m : Np.ndarray A) :
  i < Np.nrows m → length v = Np.ncols m ∨ length v = 1 →
  ∃ m', Np.set_row i v m = Ok m'.
Proof.
  intros Hi Hv. unfold Np.set_row. case_decide; [|done].
  destruct (broadcast_to_Ok _ _ Hv) as [src ->]; cbn. eauto.
Qed.

Lemma draws_lookup (c : gmap string value) d :
  dict_getitem c "draws" ≫= as_array = Ok d → c !! "draws" = Some (VArray d).
Proof.
  unfold dict_getitem. destruct (c !! "draws") as [[p|m]|]; cbn; congruence.
Qed.

Lemma elem_of_alter_draws (l : list (gmap string value)) c v x :
  x ∈ alter (<["draws" := v]>) c l →
  x ∈ l ∨ ∃ y, y ∈ l ∧ x = <["draws" := v]> y.
Proof.
  intros [i Hi]%list_elem_of_lookup. rewrite list_lookup_alter in Hi.
  case_decide; subst.
  - destruct (l !! i) as [y|] eqn:Hy; simplify_eq/=.
    right. eauto using list_elem_of_lookup_2.
  - left. eauto using list_elem_of_lookup_2.
Qed.

Lemma elem_of_insert_draws (l : list (gmap string value)) c y x :
  x ∈ <[c := y]> l → x ∈ l ∨ x = y.
Proof.
  intros [i Hi]%list_elem_of_lookup.
  apply list_lookup_insert_Some in Hi as [(-> & -> & _)|[_ Hi]]; [by right|].
  left. eauto using list_elem_of_lookup_2.
Qed.

Lemma storage_invariant_alter_draws s c d :
  storage_invariant s → Np.ncols d = 2 →
  storage_invariant
    (set_components (alter (<["draws" := VArray d]>) c (_components s)) s).
Proof.
  intros (Hlen & Hw & Hd) Hcols. unfold storage_invariant; cbn.
  rewrite length_alter. repeat split; [done..|].
  intros x d' [Hx|(y & Hy & ->)]%elem_of_alter_draws; [by eauto|].
  rewrite lookup_insert_eq. by intros [= <-].
Qed.

Lemma storage_invariant_insert_draws s c component d :
  storage_invariant s → Np.ncols d = 2 →
  storage_invariant
    (set_components
       (<[c := <["draws" := VArray d]> component]> (_components s)) s).
Proof.
  intros (Hlen & Hw & Hd) Hcols. unfold storage_invariant; cbn.
  rewrite length_insert. repeat split; [done..|].
  intros x d' [Hx| ->]%elem_of_insert_draws; [by eauto|].
  rewrite lookup_insert_eq. by intros [= <-].
Qed.

Lemma storage_invariant_set_weights s w :
  storage_invariant s → Np.ncols w = number_of_mixture_components s →
  storage_invariant (set_mixing_weights (Some (Some w)) s).
Proof.
  intros (Hlen & Hw & Hd) Hcols. unfold storage_invariant; cbn.
  repeat split; [done| |done].
  intros ? [= <-]. by rewrite Hcols.
Qed.

Lemma add_data_storage_invariant t s :
  storage_invariant s → wp (add_data t) (λ _ s', storage_invariant s') s.
Proof. intros Hs. unfold add_data. wp_run; done. Qed.

Lemma create_storage_storage_invariant n s :
  storage_invariant s →
  wp (_create_storage n) (λ _ s', storage_invariant s') s.
Proof.
  intros Hs. unfold _create_storage. wp_step. wp_step. wp_step.
  eapply wp_mono.
  - apply (wp_for_each_inv storage_invariant); [done|].
    intros c s1 Hs1. wp_run; [|done].
    apply storage_invariant_alter_draws; [done|].
    by eapply empty_shape.
  - intros [|]; cbv beta iota; intros s1 Hs1; wp_run; try done.
    apply storage_invariant_set_weights; [done|]. by eapply empty_shape.
Qed.

Lemma record_draw_storage_invariant i s :
  storage_invariant s →
  wp (_record_draw i) (λ _ s', storage_invariant s') s.
Proof.
  intros Hs. unfold _record_draw. wp_step. wp_step. wp_step.
  eapply wp_mono.
  - apply (wp_for_each_inv storage_invariant); [done|].
    intros c s1 Hs1. wp_run; try done.
    apply storage_invariant_insert_draws; [done|].
    match goal with
    | Hset : Np.set_row _ _ _ = Ok _ |- _ =>
        apply set_row_Ok in Hset as [_ ->]
    end.
    destruct Hs1 as (_ & _ & Hd). eapply Hd;
      eauto using list_elem_of_lookup_2, draws_lookup.
  - intros [|]; cbv beta iota; intros s1 Hs1; wp_run; try done.
    match goal with
    | Hset : Np.set_row _ _ _ = Ok _ |- _ =>
        apply set_row_Ok in Hset as [_ Hcols]
    end.
    apply storage_invariant_set_weights; [done|]. rewrite Hcols.
    destruct Hs1 as (Hlen & Hw & _). unfold number_of_mixture_components.
    rewrite Hlen. apply Hw.
    match goal with
    | Hw : the_mixing_weights _ = Ok _ |- _ =>
        unfold the_mixing_weights in Hw;
        destruct (_mixing_weights s1) as [[?|]|]; by simplify_eq
    end.
Qed.

Lemma sampling_loop_storage_invariant n ping seed s :
  storage_invariant s →
  wp (sampling_loop n ping seed) (λ _ s', storage_invariant s') s.
Proof.
  intros Hs. unfold sampling_loop. wp_step.
  eapply wp_mono; [by apply create_storage_storage_invariant|].
  intros [|] s1 Hs1; [|done].
  wp_step. eapply (wp_mono _ (λ _ s', storage_invariant s')).
  { destruct seed; wp_run; done. }
  intros [|] s2 Hs2; [|done].
  apply (wp_for_each_inv storage_invariant); [done|].
  intros i s3 Hs3. wp_run; try done.
  all: by apply record_draw_storage_invariant.
Qed.

Lemma mcmc_storage_invariant n ping seed s :
  storage_invariant s →
  wp (mcmc n ping seed) (λ _ s', storage_invariant s') s.
Proof.
  intros Hs. unfold mcmc. wp_step. wp_step. wp_step.
  eapply (wp_mono _ (λ _ s', storage_invariant s')).
  { wp_run; done. }
  intros [|] s1 Hs1; [|done].
  by apply sampling_loop_storage_invariant.
Qed.

Lemma add_component_storage_invariant p q n s :
  storage_invariant s → storage_invariant (exec (add_component p q n) s).
Proof.
  intros (Hlen & Hw & Hd). rewrite Calls.add_component_exec.
  unfold storage_invariant; cbn. rewrite !length_app, Hlen.
  repeat split; [done..|].
  intros c d [Hc| ->%list_elem_of_singleton]%elem_of_app; [by eauto|].
  by rewrite !lookup_insert_ne, lookup_empty.
Qed.

Lemma perform_storage_invariant c s :
  storage_invariant s → storage_invariant (exec (perform c) s).
Proof.
  destruct c as [p q n|t|n ping seed]; cbn [perform]; intros Hs.
  - by apply add_component_storage_invariant.
  - by apply add_data_storage_invariant.
  - by apply mcmc_storage_invariant.
Qed.

Lemma init_storage_invariant r : storage_invariant (__init__ r).
Proof.
  unfold storage_invariant; cbn. repeat split; [done|].
  intros c d Hc. by apply elem_of_nil in Hc.
Qed.

End Storage.
End Storage.

(** ** The rows of the draw storage *)

Module Rows.
Section Rows.
Context `{Boom}.
Import BetaBinomialMixture Properties Logic Frame Draws Storage.

Lemma create_storage_rows n s :
  wp (_create_storage n)
     (λ r s', match r with Ok _ => storage_rows n s' | Raise _ => True end) s.
Proof.
  unfold _create_storage. wp_step. wp_step. wp_step.
  set (L := length (_components s)).
  eapply wp_mono.
  - apply (wp_for_range
             (λ k s', length (_components s') = L ∧
                      ∀ j c, j < k → _components s' !! j = Some c →
                             has_rows n c)
             (λ _ _, True)).
    + split; [done|]. intros; lia.
    + intros i s1 Hi [Hlen Hdone]. wp_run; [|done].
      cbn. rewrite length_alter. split; [done|].
      intros j c Hj. rewrite list_lookup_alter.
      case_decide as Hij; [subst j|intros; apply (Hdone j); [lia|done]].
      destruct (_components s1 !! i) as [c0|]; [|done]. intros [= <-].
      match goal with
      | He : Np.empty _ _ _ _ = Ok ?d |- _ =>
          exists d; apply empty_shape in He as (? & ? & ?)
      end.
      rewrite lookup_insert_eq. split; [done|lia].
  - intros [|]; cbv beta iota; [|done]. intros s1 [Hlen Hall].
    wp_run; [|done]. unfold storage_rows; cbn. split.
    + intros c [j Hj]%list_elem_of_lookup. apply (Hall j); [|done].
      apply lookup_lt_Some in Hj. lia.
    + match goal with
      | He : Np.empty _ _ _ _ = Ok ?w |- _ =>
          exists w; apply empty_shape in He as (? & ? & ?)
      end.
      split; [done|lia].
Qed.

Lemma record_draw_rows i n s :
  storage_rows n s → wp (_record_draw i) (λ _ s', storage_rows n s') s.
Proof.
  intros Hs. unfold _record_draw. wp_step. wp_step. wp_step.
  eapply wp_mono.
  - apply (wp_for_each_inv (storage_rows n)); [done|].
    intros c s1 Hs1. pose proof Hs1 as [Hcomps Hw]. wp_run; try done.
    split; [|done]. cbn.
    intros comp' [Hin| ->]%elem_of_insert_draws; [by auto|].
    match goal with
    | Hset : Np.set_row _ _ _ = Ok ?d', Hget : _ ≫= as_array = Ok _,
        Hc : _ !! c = Some ?comp |- _ =>
        exists d'; apply set_row_Ok in Hset as [-> _];
        apply draws_lookup in Hget;
        destruct (Hcomps comp) as (d0 & Hd0 & ?);
          [by eapply list_elem_of_lookup_2|]
    end.
    rewrite lookup_insert_eq. split; [done|]. congruence.
  - intros [|]; cbv beta iota; intros s1 Hs1;
      pose proof Hs1 as [Hcomps (w0 & Hw0 & ?)]; wp_run; try done.
    split; [done|]. cbn.
    match goal with
    | Hset : Np.set_row _ _ _ = Ok ?w', Hw : the_mixing_weights _ = Ok _
      |- _ =>
        exists w'; apply set_row_Ok in Hset as [-> _];
        unfold the_mixing_weights in Hw; rewrite Hw0 in Hw
    end.
    split; [done|]. congruence.
Qed.

Lemma sampling_loop_rows n ping seed s :
  wp (sampling_loop n ping seed)
     (λ r s', r = Ok () → storage_rows n s') s.
Proof.
  unfold sampling_loop. wp_step.
  eapply wp_mono; [apply create_storage_rows|].
  intros [|] s1 Hs1; [|done].
  wp_step. eapply (wp_mono _ (λ _ s', storage_rows n s')).
  { destruct seed; wp_run; done. }
  intros [|] s2 Hs2; [|done].
  eapply wp_mono.
  - apply (wp_for_each_inv (storage_rows n)); [done|].
    intros i s3 Hs3. wp_run; try done.
    all: by apply record_draw_rows.
  - done.
Qed.

Lemma mcmc_rows n ping seed s :
  wp (mcmc n ping seed) (λ r s', r = Ok () → storage_rows n s') s.
Proof.
  unfold mcmc. wp_step. wp_step. wp_step.
  eapply (wp_mono _ (λ _ _, True)); [done|].
  intros [|] s1 _; [|done].
  apply sampling_loop_rows.
Qed.

End Rows.
End Rows.

(** ** Sampling with an engine that cooperates *)

Module Sampling.
Section Sampling.
Context `{Boom}.
Import BetaBinomialMixture Properties Logic Frame Draws Storage.

Lemma only_storage_refl s : only_storage s s.
Proof. exists (_components s), (_mixing_weights s). by destruct s. Qed.

Lemma only_storage_trans s1 s2 s3 :
  only_storage s1 s2 → only_storage s2 s3 → only_storage s1 s3.
Proof.
  intros (c & w & Hl & ->) (c' & w' & Hl' & ->).
  exists c', w'. cbn in *. split; [congruence|done].
Qed.

Lemma only_storage_components s comps :
  length comps = length (_components s) →
  only_storage s (set_components comps s).
Proof. intros Hl. exists comps, (_mixing_weights s). by destruct s. Qed.

Lemma only_storage_weights s w :
  only_storage s (set_mixing_weights w s).
Proof. exists (_components s), w. by destruct s. Qed.

Lemma storage_fits_tables n s :
  storage_fits n s = true →
  (0 < length (_components s) → allocates n 2 = true) ∧
  allocates n (number_of_mixture_components s) = true.
Proof.
  unfold storage_fits. intros [Hc Hw]%andb_prop. split; [|done].
  destruct (_components s); cbn; [lia|done].
Qed.

Lemma only_storage_counts s s' :
  only_storage s s' →
  number_of_mixture_components s' = number_of_mixture_components s.
Proof. by intros (c & w & _ & ->). Qed.

Lemma create_storage_total n s :
  storage_fits n s = true →
  wp (_create_storage n)
     (λ r s', r = Ok () ∧ only_storage s s' ∧
              storage_shaped (Z.to_nat n) (number_of_mixture_components s) s')
     s.
Proof.
  intros [Hdraws Hweights]%storage_fits_tables.
  unfold _create_storage. wp_step. wp_step. wp_step.
  set (L := length (_components s)) in *.
  eapply wp_mono.
  - apply (wp_for_range
             (λ k s', only_storage s s' ∧
                      ∀ j c, j < k → _components s' !! j = Some c →
                             ∃ d, c !! "draws" = Some (VArray d) ∧
                                  Np.shape d = (Z.to_nat n, 2))
             (λ _ _, False)).
    + split; [apply only_storage_refl|]. intros; lia.
    + intros i s1 Hi (Honly & Hdone).
      wp_step. wp_step. rewrite allocates_Ok by (apply Hdraws; lia).
      wp_step. split.
      * eapply only_storage_trans; [done|].
        apply only_storage_components. by rewrite length_alter.
      * intros j c Hj; cbn. rewrite list_lookup_alter.
        case_decide as Hij; [subst j|intros; apply (Hdone j); [lia|done]].
        destruct (_components s1 !! i) as [c0|]; [|done]. intros [= <-].
        eexists. by rewrite lookup_insert_eq.
  - intros [|]; cbv beta iota; [|done]. intros s1 [Honly Hall].
    wp_step. wp_step. wp_step. wp_step.
    rewrite (only_storage_counts _ _ Honly), allocates_Ok by done.
    wp_step. split; [done|]. split.
    + eapply only_storage_trans; [done|]. apply only_storage_weights.
    + split.
      * intros j c Hj. apply (Hall j); [|done].
        apply lookup_lt_Some in Hj. cbn in Hj.
        destruct Honly as (? & ? & ? & ->). cbn in Hj. unfold L. lia.
      * by eexists.
Qed.

Lemma set_row_shape {A} (i : nat) (v : list A) (m : Np.ndarray A) n k :
  Np.shape m = (n, k) → i < n → length v = k ∨ length v = 1 →
  ∃ m', Np.set_row i v m = Ok m' ∧ Np.shape m' = (n, k).
Proof.
  unfold Np.shape. intros [= <- <-] Hi Hv.
  destruct (set_row_fits i v m Hi Hv) as [m' Hm'].
  exists m'. split; [done|]. by apply set_row_Ok in Hm' as [-> ->].
Qed.

Lemma accessors_ok m L c :
  forallb (λ c, is_ok (component_a m c) && is_ok (component_b m c))
          (seq 0 L) = true →
  c < L → ∃ va vb, component_a m c = Ok va ∧ component_b m c = Ok vb.
Proof.
  intros Hall Hc. rewrite List.forallb_forall in Hall.
  assert (c ∈ seq 0 L) as Hin%list_elem_of_In by (apply elem_of_seq; lia).
  apply Hall, andb_prop in Hin as [Ha Hb].
  destruct (component_a m c), (component_b m c); by eauto.
Qed.

Lemma record_draw_total i n k s m p :
  _boom_model s = Some m → storage_shaped n k s → i < n →
  forallb (λ c, is_ok (component_a m c) && is_ok (component_b m c))
          (seq 0 (length (_components s))) = true →
  mixing_probs m = Ok p → length p = k ∨ length p = 1 →
  wp (_record_draw i)
     (λ r s', r = Ok () ∧ only_storage s s' ∧ storage_shaped n k s') s.
Proof.
  intros Hm Hshaped Hi Hacc Hp Hlen.
  unfold _record_draw. wp_step. wp_step. wp_step.
  eapply wp_mono.
  - apply (wp_for_range
             (λ _ s', only_storage s s' ∧ storage_shaped n k s')
             (λ _ _, False)).
    + split; [apply only_storage_refl|done].
    + intros c s1 Hc (Honly & Hcomps & Hw).
      wp_step. wp_step.
      destruct (_components s1 !! c) as [component|] eqn:Hcomp.
      2: { apply lookup_ge_None in Hcomp.
           destruct Honly as (? & ? & ? & ->). cbn in Hcomp. lia. }
      destruct (Hcomps c component Hcomp) as (d & Hd & Hdshape).
      destruct (accessors_ok m _ c Hacc) as (va & vb & Hva & Hvb); [lia|].
      destruct (set_row_shape i [va; vb] d n 2 Hdshape Hi) as (d' & Hd' & ?);
        [by left|].
      assert (the_model s1 = Ok m) as Hmodel.
      { destruct Honly as (? & ? & ? & ->). unfold the_model; cbn.
        by rewrite Hm. }
      wp_step. wp_step. rewrite Hmodel.
      wp_step. wp_step. rewrite Hva.
      wp_step. wp_step. rewrite Hvb.
      wp_step. wp_step. unfold dict_getitem. rewrite Hd. cbn.
      wp_step. wp_step. rewrite Hd'.
      wp_step. split.
      * eapply only_storage_trans; [done|].
        apply only_storage_components. by rewrite length_insert.
      * split; [|done]. intros j cj; cbn.
        destruct (decide (c = j)) as [->|].
        -- rewrite list_lookup_insert_eq by eauto using lookup_lt_Some.
           intros [= <-]. exists d'. by rewrite lookup_insert_eq.
        -- rewrite list_lookup_insert_ne by done. apply Hcomps.
  - intros [|]; cbv beta iota; [|done].
    intros s1 (Honly & Hcomps & (w & Hw & Hwshape)).
    destruct (set_row_shape i p w n k Hwshape Hi Hlen) as (w' & Hw' & ?).
    wp_step. wp_step. wp_step. wp_step.
    replace (the_model s1) with (Ok m : result Model).
    2: { destruct Honly as (? & ? & ? & ->). unfold the_model; cbn.
         by rewrite Hm. }
    wp_step. wp_step. rewrite Hp.
    wp_step. wp_step. unfold the_mixing_weights. rewrite Hw.
    wp_step. wp_step. rewrite Hw'.
    wp_step. split; [done|]. split.
    + eapply only_storage_trans; [done|]. apply only_storage_weights.
    + split; [done|]. by exists w'.
Qed.

Lemma engine_cooperates_step L k r g m :
  engine_cooperates L k (S r) g m = true →
  ∃ u g' m' p,
    sample_posterior g m = (Ok u, (g', m')) ∧
    forallb (λ c, is_ok (component_a m' c) && is_ok (component_b m' c))
            (seq 0 L) = true ∧
    mixing_probs m' = Ok p ∧ (length p = k ∨ length p = 1) ∧
    engine_cooperates L k r g' m' = true.
Proof.
  cbn [engine_cooperates].
  destruct (sample_posterior g m) as [[u|e] [g' m']]; [|done].
  intros [[Hacc Hp]%andb_prop Hrest]%andb_prop.
  destruct (mixing_probs m') as [p|] eqn:Hprobs; cbn in Hp; [|done].
  apply bool_decide_eq_true in Hp. exists u, g', m', p. auto.
Qed.

Lemma sweeps_step r g m u g' m' :
  sample_posterior g m = (u, (g', m')) →
  sweeps (S r) g m = sweeps r g' m'.
Proof. intros Hs. cbn [sweeps]. by rewrite Hs. Qed.

Lemma sampling_loop_total n ping seed s m0 :
  _boom_model s = Some m0 → storage_fits n s = true →
  engine_cooperates (length (_components s))
    (number_of_mixture_components s) (Z.to_nat n)
    (seeded seed (rng s)) m0 = true →
  wp (sampling_loop n ping seed)
     (λ r s',
        r = Ok () ∧
        (rng s', _boom_model s') =
          (let '(g, m) := sweeps (Z.to_nat n) (seeded seed (rng s)) m0 in
           (g, Some m)) ∧
        warnings s' = warnings s ∧
        storage_shaped (Z.to_nat n) (number_of_mixture_components s) s')
     s.
Proof.
  intros Hm Hn Hcoop. unfold sampling_loop.
  set (N := Z.to_nat n) in *.
  set (L := length (_components s)) in *.
  set (k := number_of_mixture_components s) in *.
  set (g0 := seeded seed (rng s)) in *.
  wp_step. eapply wp_mono; [by apply create_storage_total|].
  intros r s1 (-> & Honly1 & Hshaped1). fold N in Hshaped1. fold k in Hshaped1.
  wp_step.
  eapply (wp_mono _ (λ r s', r = Ok () ∧ s' = set_rng g0 s1)).
  { unfold g0, seeded. destruct Honly1 as (? & ? & ? & ->).
    destruct seed; wp_run; by split. }
  intros r s2 (-> & ->).
  eapply wp_mono.
  - apply (wp_for_range
             (λ i s',
                ∃ g m, _boom_model s' = Some m ∧ rng s' = g ∧
                       engine_cooperates L k (N - i) g m = true ∧
                       sweeps (N - i) g m = sweeps N g0 m0 ∧
                       storage_shaped N k s' ∧
                       length (_components s') = L ∧
                       warnings s' = warnings s)
             (λ _ _, False)).
    + exists g0, m0. destruct Honly1 as (? & ? & ? & ->); cbn.
      rewrite Nat.sub_0_r. done.
    + intros i s3 Hi (g & m & Hm3 & Hg3 & Hcoop3 & Hsw & Hsh & Hlen & Hwarn).
      replace (N - i) with (S (N - S i)) in Hcoop3, Hsw by lia.
      apply engine_cooperates_step in Hcoop3
        as (u & g' & m' & p & Hsample & Hacc & Hp & Hplen & Hcoop').
      rewrite (sweeps_step _ _ _ _ _ _ Hsample) in Hsw.
      wp_step. wp_step. wp_step. wp_step. wp_step. wp_step.
      unfold the_model; cbn. rewrite Hm3, Hg3, Hsample.
      wp_step. wp_step. wp_step. wp_step. destruct u.
      eapply wp_mono.
      * eapply (record_draw_total i N k _ m' p); cbn; try done; [lia|].
        by rewrite Hlen.
      * intros r s4 (-> & Honly & Hsh4).
        exists g', m'. destruct Honly as (? & ? & Hl4 & ->); cbn in *.
        do 5 (split; [done|]). split; [congruence|done].
  - intros [[]|]; cbv beta iota; [|done].
    intros s3 (g & m & Hm3 & Hg3 & _ & Hsw & Hsh & _ & Hwarn).
    rewrite Nat.add_0_l, Nat.sub_diag in Hsw. cbn in Hsw. rewrite <- Hsw.
    split; [done|]. split; [by rewrite Hm3, Hg3|]. by split.
Qed.

End Sampling.
End Sampling.

(** ** Data handed to the engine *)

Module Data.
Section Data.
Context `{Boom}.
Import BetaBinomialMixture Properties Logic Frame.

Lemma mapM_Ok {A B} (f : A → result B) (xs : list A) ys x :
  mapM f xs = Ok ys → x ∈ xs → ∃ y, f x = Ok y.
Proof.
  revert ys. induction xs as [|x0 xs IH]; intros ys Hys Hx; cbn in *.
  - by apply elem_of_nil in Hx.
  - destruct (f x0) as [y0|] eqn:Hy0; cbn in Hys; [|done].
    destruct (mapM f xs) as [ys'|]; cbn in Hys; [|done].
    apply elem_of_cons in Hx as [->|Hx]; eauto.
Qed.

Lemma elem_of_cells {A} (m : Np.ndarray A) i j :
  i < Np.nrows m → j < Np.ncols m → Np.cell m i j ∈ Np.cells m.
Proof.
  intros Hi Hj. unfold Np.cells. apply list_elem_of_bind.
  exists i. split; [|apply elem_of_seq; lia].
  apply list_elem_of_fmap. exists j. split; [done|apply elem_of_seq; lia].
Qed.

(** A successful [astype] keeps the shape and converts every cell. *)
Lemma astype_Ok {A B} (conv : A → result B) warns dflt (m : Np.ndarray A) d :
  (Np.astype conv warns dflt m).2 = Ok d →
  Np.shape d = Np.shape m ∧
  ∀ i j, i < Np.nrows m → j < Np.ncols m →
         conv (Np.cell m i j) = Ok (Np.cell d i j).
Proof.
  unfold Np.astype; cbn.
  destruct (mapM conv (Np.cells m)) as [ys|] eqn:Hys; cbn; [|done].
  intros [= <-]. split; [done|]. intros i j Hi Hj; cbn.
  destruct (mapM_Ok _ _ _ _ Hys (elem_of_cells m i j Hi Hj)) as [y ->]. done.
Qed.

Lemma column_Ok {A} (d : Np.ndarray A) j :
  j < Np.ncols d →
  Np.column j d = Ok ((λ i, Np.cell d i j) <$> seq 0 (Np.nrows d)).
Proof. intros Hj. unfold Np.column. by case_decide. Qed.

Lemma column_out_of_range {A} (d : Np.ndarray A) j :
  Np.ncols d ≤ j → Np.column j d = Raise IndexError.
Proof. intros Hj. unfold Np.column. case_decide; [lia|done]. Qed.

(** The first step of [add_data] and [mcmc]: afterwards the object
    holds the model in use. *)
Lemma model_in_use_build s m :
  _boom_model s = None → model_in_use s m →
  eval _build_boom_model s = Ok m.
Proof. unfold model_in_use. by intros ->. Qed.

(** [add_data] up to the conversion of the table: the object holds the
    model in use, and numpy may have warned on the terminal. *)
Lemma add_data_cast t s m d Q :
  model_in_use s m →
  (Np.astype to_int cast_warns 0%Z (values_of t)).2 = Ok d →
  (∀ s1, _boom_model s1 = Some m →
         wp (trials ← lift (Np.column 0 d);
             successes ← lift (Np.column 1 d);
             counts ← lift (Np.column 2 d);
             s ← get;
             m ← lift (the_model s);
             let '(r, m') := model_add_data m trials successes counts in
             modify (set_boom_model (Some m'));; lift r) Q s1) →
  wp (add_data t) Q s.
Proof.
  intros Hm Hd Hrest. unfold model_in_use in Hm. unfold add_data.
  wp_step. wp_step. wp_step.
  eapply (wp_mono _ (λ r s', r = Ok () ∧ _boom_model s' = Some m)).
  { destruct (_boom_model s) as [m'|] eqn:Hs.
    - wp_step. by subst m'.
    - wp_step. apply build_boom_model_pure. rewrite Hm. by wp_step. }
  intros r s1 [-> Hs1].
  fold (values_of t).
  destruct (Np.astype to_int cast_warns 0%Z (values_of t)) as [warned cast].
  cbn in Hd. subst cast. wp_step.
  eapply (wp_mono _ (λ r s', r = Ok () ∧ _boom_model s' = Some m)).
  { destruct warned; by wp_step. }
  intros r s2 [-> Hs2]. wp_step. wp_step. by apply Hrest.
Qed.

Lemma add_data_narrow t s m d :
  model_in_use s m →
  (Np.astype to_int cast_warns 0%Z (values_of t)).2 = Ok d →
  Np.ncols d < 3 →
  wp (add_data t)
     (λ r s', r = Raise IndexError ∧ _boom_model s' = Some m) s.
Proof.
  intros Hm Hd Hcols. apply (add_data_cast t s m d); [done..|].
  intros s1 Hs1. wp_step. wp_step.
  destruct (decide (Np.ncols d = 0)).
  { by rewrite column_out_of_range by lia. }
  rewrite column_Ok by lia. wp_step. wp_step.
  destruct (decide (Np.ncols d = 1)).
  { by rewrite column_out_of_range by lia. }
  rewrite column_Ok by lia. wp_step. wp_step.
  by rewrite column_out_of_range by lia.
Qed.

Lemma add_data_wide t s m d :
  model_in_use s m →
  (Np.astype to_int cast_warns 0%Z (values_of t)).2 = Ok d →
  3 ≤ Np.ncols d →
  wp (add_data t)
     (λ r s',
        let '(r0, m') :=
          model_add_data m (column_of d 0) (column_of d 1) (column_of d 2) in
        r = r0 ∧ _boom_model s' = Some m') s.
Proof.
  intros Hm Hd Hcols. apply (add_data_cast t s m d); [done..|].
  intros s1 Hs1.
  wp_step. wp_step. rewrite column_Ok by lia.
  wp_step. wp_step. rewrite column_Ok by lia.
  wp_step. wp_step. rewrite column_Ok by lia.
  wp_step. wp_step. wp_step. wp_step.
  unfold the_model. rewrite Hs1. wp_step.
  unfold column_of.
  destruct (model_add_data m _ _ _) as [r0 m'].
  wp_step. wp_step. wp_step. by simplify_eq.
Qed.

Lemma add_data_weights t s :
  _mixing_weights (exec (add_data t) s) = _mixing_weights s.
Proof.
  change (wp (add_data t) (λ _ s', _mixing_weights s' = _mixing_weights s) s).
  unfold add_data.
  wp_run; done.
Qed.

End Data.
End Data.

(** ** The table of mixing weights is one numpy allocates *)

Module Allocation.
Section Allocation.
Context `{Boom}.
Import BetaBinomialMixture Properties Logic Frame Calls Draws Storage Data.

Lemma weights_allocated_set s w :
  allocates (Z.of_nat (Np.nrows w)) (Np.ncols w) = true →
  weights_allocated (set_mixing_weights (Some (Some w)) s).
Proof. intros Hw w'; cbn. by intros [= <-]. Qed.

Lemma create_storage_weights_allocated n s :
  weights_allocated s →
  wp (_create_storage n) (λ _ s', weights_allocated s') s.
Proof.
  intros Hs. unfold _create_storage. wp_step. wp_step. wp_step.
  eapply wp_mono.
  - apply (wp_for_each_inv weights_allocated); [done|].
    intros c s1 Hs1. wp_run; done.
  - intros [|]; cbv beta iota; intros s1 Hs1; wp_run; try done.
    by eapply weights_allocated_set, allocated_allocates.
Qed.

Lemma record_draw_weights_allocated i s :
  weights_allocated s →
  wp (_record_draw i) (λ _ s', weights_allocated s') s.
Proof.
  intros Hs. unfold _record_draw. wp_step. wp_step. wp_step.
  eapply wp_mono.
  - apply (wp_for_each_inv weights_allocated); [done|].
    intros c s1 Hs1. wp_run; done.
  - intros [|]; cbv beta iota; intros s1 Hs1; wp_run; try done.
    apply weights_allocated_set.
    match goal with
    | Hset : Np.set_row _ _ _ = Ok _, Hw : the_mixing_weights _ = Ok _ |- _ =>
        apply set_row_Ok in Hset as [-> ->];
        unfold the_mixing_weights in Hw;
        destruct (_mixing_weights s1) as [[w0|]|] eqn:Hw0; simplify_eq
    end.
    by apply Hs1.
Qed.

Lemma sampling_loop_weights_allocated n ping seed s :
  weights_allocated s →
  wp (sampling_loop n ping seed) (λ _ s', weights_allocated s') s.
Proof.
  intros Hs. unfold sampling_loop. wp_step.
  eapply wp_mono; [by apply create_storage_weights_allocated|].
  intros [|] s1 Hs1; [|done].
  wp_step. eapply (wp_mono _ (λ _ s', weights_allocated s')).
  { destruct seed; wp_run; done. }
  intros [|] s2 Hs2; [|done].
  apply (wp_for_each_inv weights_allocated); [done|].
  intros i s3 Hs3. wp_run; try done.
  all: by apply record_draw_weights_allocated.
Qed.

Lemma mcmc_weights_allocated n ping seed s :
  weights_allocated s →
  wp (mcmc n ping seed) (λ _ s', weights_allocated s') s.
Proof.
  intros Hs. unfold mcmc. wp_step. wp_step. wp_step.
  eapply (wp_mono _ (λ _ s', weights_allocated s')).
  { wp_run; done. }
  intros [|] s1 Hs1; [|done].
  by apply sampling_loop_weights_allocated.
Qed.

Lemma perform_weights_allocated c s :
  weights_allocated s → weights_allocated (exec (perform c) s).
Proof.
  destruct c as [p q n|t|n ping seed]; cbn [perform]; intros Hs.
  - by rewrite add_component_exec.
  - intros w. rewrite add_data_weights. apply Hs.
  - by apply mcmc_weights_allocated.
Qed.

Lemma reachable_weights_allocated r calls :
  weights_allocated (after calls (__init__ r)).
Proof. by apply after_ind; [apply perform_weights_allocated|]. Qed.

(** On an object made by calls, the table of mixing weights has a column
    per component: there are as many prior counts as records. *)
Lemma reachable_weights_columns r calls w :
  _mixing_weights (after calls (__init__ r)) = Some (Some w) →
  Np.ncols w = number_of_mixture_components (after calls (__init__ r)).
Proof.
  intros Hw.
  assert (storage_invariant (after calls (__init__ r))) as (Hlen & Hcols & _).
  { apply after_ind; [apply perform_storage_invariant|].
    apply init_storage_invariant. }
  unfold number_of_mixture_components. rewrite Hlen. by apply Hcols.
Qed.

End Allocation.
End Allocation.

(** ** The specification's properties, on any engine *)

Section Specification.
Context `{Boom}.
Import BetaBinomialMixture Properties Logic Frame Calls Draws Storage.
Import Rows Sampling Data Allocation.

Lemma no_mcmc_weights calls s :
  mcmc_calls calls = 0 →
  (∀ w, _mixing_weights s ≠ Some (Some w)) →
  ∀ w, _mixing_weights (after calls s) ≠ Some (Some w).
Proof.
  revert s. induction calls as [|c calls IH]; intros s Hno Hs; [done|].
  rewrite after_cons. unfold mcmc_calls in *. cbn [List.filter] in Hno.
  destruct c as [p q n|t|n ping seed]; cbn [is_mcmc perform length] in *;
    [| |done]; (apply IH; [done|]).
  - by rewrite add_component_exec.
  - by rewrite add_data_weights.
Qed.

(** C2. On an object that has had [add_component] called at least once,
    reading [a], [b], [means] or [sample_sizes] raises [TypeError]: the
    list of components is subscripted with the string ["draws"]. *)
Theorem draw_properties_raise_TypeError (r : Rng) (calls : list call) :
  0 < add_component_calls calls →
  a (after calls (__init__ r)) = Raise TypeError ∧
  b (after calls (__init__ r)) = Raise TypeError ∧
  means (after calls (__init__ r)) = Raise TypeError ∧
  sample_sizes (after calls (__init__ r)) = Raise TypeError.
Proof.
  intros Hcalls. set (s := after calls (__init__ r)).
  assert (0 < number_of_mixture_components s) as Hk.
  { unfold s. rewrite after_counts. cbn. lia. }
  assert (_mixing_weights s ≠ None) as Hw.
  { intros Hnone. apply (reachable_weights_assigned r calls) in Hnone.
    unfold number_of_mixture_components in Hk. fold s in Hnone.
    rewrite Hnone in Hk. cbn in Hk. lia. }
  pose proof (reachable_weights_allocated r calls) as Halloc.
  pose proof (reachable_weights_columns r calls) as Hcols.
  assert (a s = Raise TypeError) as Ha by by apply a_raises.
  assert (b s = Raise TypeError) as Hb by by apply b_raises.
  unfold means, sample_sizes. by rewrite Ha.
Qed.

(** C4, as the class has it. On an object that has components and on
    which [mcmc] has not been called, [niter] is 0 and [mixing_weights]
    is [None]: no table has been allocated. *)
Theorem niter_zero_before_sampling (r : Rng) (calls : list call) :
  mcmc_calls calls = 0 →
  0 < add_component_calls calls →
  niter (after calls (__init__ r)) = Ok 0 ∧
  mixing_weights (after calls (__init__ r)) = Ok None.
Proof.
  intros Hno Hadd. set (s := after calls (__init__ r)).
  assert (_mixing_weights s = Some None) as Hw.
  { pose proof (no_mcmc_weights calls (__init__ r) Hno) as Hnever.
    pose proof (reachable_weights_assigned r calls) as Hassigned.
    pose proof (after_counts calls (__init__ r)) as Hk.
    fold s in Hnever, Hassigned, Hk.
    unfold weights_assigned, number_of_mixture_components in *.
    destruct (_mixing_weights s) as [[w|]|]; [|done|].
    - by destruct (Hnever ltac:(done) w).
    - rewrite Hassigned in Hk by done. cbn in Hk. lia. }
  unfold niter, mixing_weights. by rewrite Hw.
Qed.

(** C5. After any calls on a fresh object, [number_of_mixture_components]
    is the number of [add_component] calls among them, whatever their
    arguments. *)
Theorem number_of_mixture_components_counts_calls
    (r : Rng) (calls : list call) :
  number_of_mixture_components (after calls (__init__ r)) =
  add_component_calls calls.
Proof. by rewrite after_counts. Qed.

(** C6. When [mcmc(niter=n1)] and then [mcmc(niter=n2)] return, every
    table of the draw storage has [n1] rows after the first call and
    [n2] rows after the second: the tables are allocated anew. *)
Theorem mcmc_twice_overwrites (s : state) (n1 n2 : Z)
    (ping1 seed1 ping2 seed2 : option Z) :
  eval (mcmc n1 ping1 seed1) s = Ok () →
  eval (mcmc n2 ping2 seed2) (exec (mcmc n1 ping1 seed1) s) = Ok () →
  storage_rows n1 (exec (mcmc n1 ping1 seed1) s) ∧
  storage_rows n2
    (exec (mcmc n2 ping2 seed2) (exec (mcmc n1 ping1 seed1) s)).
Proof.
  intros H1 H2. split.
  - by apply (mcmc_rows n1 ping1 seed1 s).
  - by apply (mcmc_rows n2 ping2 seed2).
Qed.

(** C7. Called on an object that holds no model, [mcmc] builds one from
    the components, warns that there is no data and runs the sampling
    loop: with an engine that builds the model and cooperates for the
    requested sweeps, and a count of iterations for which numpy allocates
    the draw tables, the call returns, the warning is the last one
    issued, the model has made the sweeps and [niter] is their number. *)
Theorem mcmc_without_data (s : state) (n : Z) (ping seed : option Z)
    (m0 : Model) :
  _boom_model s = None →
  eval _build_boom_model s = Ok m0 →
  storage_fits n s = true →
  engine_cooperates (length (_components s))
    (number_of_mixture_components s) (Z.to_nat n)
    (seeded seed (rng s)) m0 = true →
  eval (mcmc n ping seed) s = Ok () ∧
  warnings (exec (mcmc n ping seed) s) = warnings s ++ [no_data_warning] ∧
  _boom_model (exec (mcmc n ping seed) s) =
    Some (sweeps (Z.to_nat n) (seeded seed (rng s)) m0).2 ∧
  niter (exec (mcmc n ping seed) s) = Ok (Z.to_nat n).
Proof.
  intros Hnone Hbuild Hn Hcoop.
  change (wp (mcmc n ping seed)
            (λ r s', r = Ok () ∧
                     warnings s' = warnings s ++ [no_data_warning] ∧
                     _boom_model s' =
                       Some (sweeps (Z.to_nat n) (seeded seed (rng s)) m0).2 ∧
                     niter s' = Ok (Z.to_nat n)) s).
  unfold mcmc. wp_step. wp_step. wp_step. rewrite Hnone.
  wp_step. apply build_boom_model_pure. rewrite Hbuild.
  wp_step. wp_step. wp_step.
  eapply wp_mono; [by apply (sampling_loop_total n ping seed _ m0)|].
  cbn. intros r s' (-> & Hengine & Hwarn & _ & (w & Hw & Hshape)).
  destruct (sweeps _ _ _) as [g m]. simplify_eq/=.
  repeat split; try done. unfold niter. rewrite Hw.
  unfold Np.shape in Hshape. injection Hshape as Hrows _.
  by rewrite Hrows.
Qed.

(** C8, as the class has it. [add_data] validates nothing itself. When
    the table, converted to integers, has fewer than three columns the
    call raises [IndexError] before the engine is given anything; with
    three columns or more its first three columns go to the engine as
    they are and the outcome is the engine's. *)
Theorem add_data_forwards_columns (t : table) (s : state) (m : Model)
    (d : Np.ndarray Z) :
  model_in_use s m →
  (Np.astype to_int cast_warns 0%Z (values_of t)).2 = Ok d →
  (Np.ncols d < 3 →
     eval (add_data t) s = Raise IndexError ∧
     _boom_model (exec (add_data t) s) = Some m) ∧
  (3 ≤ Np.ncols d →
     (eval (add_data t) s, _boom_model (exec (add_data t) s)) =
     (let '(r, m') :=
        model_add_data m (column_of d 0) (column_of d 1) (column_of d 2) in
      (r, Some m'))).
Proof.
  intros Hm Hd. split; intros Hcols.
  - by destruct (add_data_narrow t s m d Hm Hd Hcols) as [-> ->].
  - pose proof (add_data_wide t s m d Hm Hd Hcols) as Hwp.
    unfold wp in Hwp. destruct (model_add_data _ _ _ _) as [r m'].
    by destruct Hwp as [-> ->].
Qed.

Lemma after_storage_invariant (r : Rng) (calls : list call) :
  storage_invariant (after calls (__init__ r)).
Proof.
  apply after_ind; [apply perform_storage_invariant|].
  apply init_storage_invariant.
Qed.

(** C9, as the class has it. After any calls on a fresh object there
    are as many prior counts as components, the table of mixing weights,
    when allocated, has one column per component, and each component's
    draw table has two columns. *)
Theorem storage_invariant_reachable (r : Rng) (calls : list call) :
  storage_invariant (after calls (__init__ r)).
Proof. apply after_storage_invariant. Qed.

(** C10, as the class has it. A component record stays at its index
    through any later calls and keeps its two priors and every field it
    had; the one field later calls add or replace is its draw table. *)
Theorem component_spec_persists (s : state) (calls : list call) (i : nat)
    (c : gmap string value) :
  _components s !! i = Some c →
  ∃ c', _components (after calls s) !! i = Some c' ∧ same_spec c c'.
Proof.
  revert i c.
  change (keeps_components s (after calls s)).
  revert s. induction calls as [|c0 calls IH]; intros s.
  - apply keeps_components_refl.
  - rewrite after_cons. eapply keeps_components_trans; [|apply IH].
    apply perform_keeps_components.
Qed.

(** What holds of the draw matrices after a successful [mcmc] on an
    object built by calls: [niter] and the mixing weights are as
    documented; the four matrices read from the components raise as soon
    as there is a component. *)
Lemma after_mcmc_shapes (r : Rng) (calls : list call) (n : Z)
    (ping seed : option Z) :
  eval (mcmc n ping seed) (after calls (__init__ r)) = Ok () →
  ∃ w, mixing_weights (after (calls ++ [Mcmc n ping seed]) (__init__ r))
         = Ok (Some w) ∧
       niter (after (calls ++ [Mcmc n ping seed]) (__init__ r))
         = Ok (Z.to_nat n) ∧
       Np.shape w = (Z.to_nat n, add_component_calls calls).
Proof.
  intros Hok. rewrite after_app. cbn.
  set (s := after calls (__init__ r)) in *.
  pose proof (mcmc_rows n ping seed s Hok) as [_ (w & Hw & Hrows)].
  pose proof (after_storage_invariant r (calls ++ [Mcmc n ping seed]))
    as (Hlen & Hcols & _).
  rewrite after_app in Hlen, Hcols. cbn in Hlen, Hcols. fold s in Hlen, Hcols.
  exists w. unfold mixing_weights, niter, Np.shape. rewrite Hw.
  split; [done|]. split; [f_equal; lia|].
  rewrite (Hcols w Hw), <- Hlen. f_equal; [lia|].
  destruct (mcmc_evolves n ping seed s) as [-> _].
  apply (after_counts calls (__init__ r)).
Qed.

End Specification.

(** ** The class on the small engine *)

Section Examples.
#[local] Existing Instance Toy.numpy.
#[local] Existing Instance Toy.boom.
Import BetaBinomialMixture Properties.

(** On a fresh object even [niter] fails: [__init__] does not assign
    [_mixing_weights]. *)
Example niter_fresh : niter Toy.fresh = Raise AttributeError.
Proof. reflexivity. Qed.

(** C1. One component, one sampled iteration: the draws are recorded in
    the component, yet [means] and [sample_sizes] raise [TypeError]
    instead of returning [a / (a + b)] and [a + b]. *)
Theorem means_raise_after_sampling :
  eval (mcmc 1 None None) Toy.configured = Ok () ∧
  ((λ c, Np.shape <$> component_draws c) <$> _components Toy.sampled)
    = [Some (1, 2)] ∧
  means Toy.sampled = Raise TypeError ∧
  sample_sizes Toy.sampled = Raise TypeError ∧
  ¬ derived_from_draws Toy.sampled.
Proof.
  repeat split; try by vm_compute.
  intros (va & vb & vm & vs & Ha & _). by vm_compute in Ha.
Qed.

(** C3. One component, [mcmc(niter=1)]: [niter] is 1 and the mixing
    weights are a 1 by 1 table, but [a], [b], [means] and [sample_sizes]
    raise [TypeError] where a 1 by 1 matrix is documented. *)
Theorem draw_matrices_after_mcmc :
  eval (mcmc 1 None None) Toy.configured = Ok () ∧
  number_of_mixture_components Toy.sampled = 1 ∧
  niter Toy.sampled = Ok 1 ∧
  (∃ w, mixing_weights Toy.sampled = Ok (Some w) ∧ Np.shape w = (1, 1)) ∧
  a Toy.sampled = Raise TypeError ∧
  b Toy.sampled = Raise TypeError ∧
  ¬ shaped_after_sampling 1 Toy.sampled.
Proof.
  repeat split; try by vm_compute.
  - eexists. split; by vm_compute.
  - intros (_ & (m & Ha & _) & _). by vm_compute in Ha.
Qed.

Lemma draw_properties_raise_TypeError_witness :
  0 < add_component_calls [Toy.one_component; Toy.sample 1] ∧
  a Toy.sampled = Raise TypeError ∧
  b Toy.sampled = Raise TypeError ∧
  means Toy.sampled = Raise TypeError ∧
  sample_sizes Toy.sampled = Raise TypeError.
Proof.
  split; [vm_compute; lia|].
  apply (@draw_properties_raise_TypeError Toy.numpy Toy.boom 0%Z
           [Toy.one_component; Toy.sample 1]).
  vm_compute; lia.
Defined.

(** C4 as worded fails once a component is added: [mixing_weights] is
    [None] and [a] raises. *)
Lemma before_sampling_not_empty :
  mcmc_calls [Toy.one_component] = 0 ∧
  mixing_weights Toy.configured = Ok None ∧
  a Toy.configured = Raise TypeError ∧
  ¬ empty_before_sampling Toy.configured.
Proof.
  repeat split; try by vm_compute.
  intros (_ & _ & _ & _ & _ & (w & Hw & _)). by vm_compute in Hw.
Qed.

Lemma niter_zero_before_sampling_witness :
  mcmc_calls [Toy.one_component] = 0 ∧
  0 < add_component_calls [Toy.one_component] ∧
  niter Toy.configured = Ok 0 ∧
  mixing_weights Toy.configured = Ok None.
Proof.
  split; [reflexivity|]. split; [vm_compute; lia|].
  apply (@niter_zero_before_sampling Toy.numpy Toy.boom 0%Z [Toy.one_component]);
    [reflexivity|vm_compute; lia].
Defined.

Lemma mcmc_twice_overwrites_witness :
  eval (mcmc 2 None None) Toy.configured = Ok () ∧
  eval (mcmc 1 None None) (exec (mcmc 2 None None) Toy.configured) = Ok () ∧
  storage_rows 2 (exec (mcmc 2 None None) Toy.configured) ∧
  storage_rows 1
    (exec (mcmc 1 None None) (exec (mcmc 2 None None) Toy.configured)).
Proof.
  split; [reflexivity|]. split; [reflexivity|].
  apply (@mcmc_twice_overwrites Toy.numpy Toy.boom Toy.configured 2 1 None None None None);
    reflexivity.
Defined.

Lemma mcmc_without_data_witness :
  _boom_model Toy.configured = None ∧
  eval _build_boom_model Toy.configured = Ok (Toy.mk_model 1 [] 0) ∧
  eval (mcmc 3 None (Some 7%Z)) Toy.configured = Ok () ∧
  warnings (exec (mcmc 3 None (Some 7%Z)) Toy.configured)
    = [no_data_warning] ∧
  _boom_model (exec (mcmc 3 None (Some 7%Z)) Toy.configured)
    = Some (Toy.mk_model 1 [] 3) ∧
  niter (exec (mcmc 3 None (Some 7%Z)) Toy.configured) = Ok 3.
Proof.
  split; [reflexivity|]. split; [reflexivity|].
  apply (@mcmc_without_data Toy.numpy Toy.boom Toy.configured 3 None (Some 7%Z)
           (Toy.mk_model 1 [] 0));
    [reflexivity|reflexivity|reflexivity|reflexivity].
Defined.

(** C8 as worded fails: a table with a negative count, and one with a
    fourth column, are accepted and reach the engine. *)
Lemma negative_counts_reach_engine :
  malformed Toy.negative_table ∧
  eval (add_data Toy.negative_table) Toy.configured = Ok () ∧
  (Toy.records <$> _boom_model (exec (add_data Toy.negative_table)
                                  Toy.configured))
    = Some [(10, -4, 28)%Z] ∧
  ¬ rejected_at_boundary Toy.negative_table Toy.configured ∧
  malformed Toy.wide_table ∧
  eval (add_data Toy.wide_table) Toy.configured = Ok () ∧
  ¬ rejected_at_boundary Toy.wide_table Toy.configured.
Proof.
  split.
  { right. exists 0, 1, (-4)%Z. repeat split; try (cbn; lia). }
  split; [reflexivity|]. split; [reflexivity|]. split.
  { intros [(e & He & _) _]. by vm_compute in He. }
  split; [by left|]. split; [reflexivity|].
  intros [(e & He & _) _]. by vm_compute in He.
Qed.

Lemma add_data_forwards_columns_witness :
  model_in_use Toy.configured (Toy.mk_model 1 [] 0) ∧
  eval (add_data Toy.narrow_table) Toy.configured = Raise IndexError ∧
  (Toy.records <$> _boom_model (exec (add_data Toy.narrow_table)
                                  Toy.configured)) = Some [] ∧
  (Toy.records <$> _boom_model (exec (add_data Toy.negative_table)
                                  Toy.configured))
    = Some [(10, -4, 28)%Z].
Proof.
  split; [reflexivity|].
  destruct (@add_data_forwards_columns Toy.numpy Toy.boom Toy.narrow_table Toy.configured
              (Toy.mk_model 1 [] 0) (Toy.rows_table [[10; 4]%Z] 2))
    as [Hnarrow _]; [reflexivity|reflexivity|].
  destruct (@add_data_forwards_columns Toy.numpy Toy.boom Toy.negative_table Toy.configured
              (Toy.mk_model 1 [] 0) (Toy.rows_table [[10; -4; 28]%Z] 3))
    as [_ Hwide]; [reflexivity|reflexivity|].
  destruct Hnarrow as [-> ->]; [cbn; lia|].
  split; [reflexivity|]. split; [reflexivity|].
  specialize (Hwide ltac:(cbn; lia)).
  apply (f_equal snd) in Hwide. cbn [snd] in Hwide. by rewrite Hwide.
Defined.

(** C9 as worded fails: with one component, its draw table has two
    columns. *)
Lemma component_table_two_columns :
  length (_components Toy.sampled) = 1 ∧
  (Np.ncols <$> draw_tables Toy.sampled) = [2; 1] ∧
  ¬ parallel_and_columns Toy.sampled.
Proof.
  split; [reflexivity|]. split; [reflexivity|].
  intros [_ Hcols].
  destruct (draw_tables Toy.sampled) as [|t ts] eqn:Htables; [done|].
  specialize (Hcols t ltac:(left)).
  apply (f_equal (fmap Np.ncols)) in Htables.
  vm_compute in Htables. vm_compute in Hcols. congruence.
Qed.

(** C10 as worded fails: [mcmc] stores the draw table in the record. *)
Lemma mcmc_changes_record :
  Toy.sampled = after [Toy.sample 1] Toy.configured ∧
  (dom <$> _components Toy.configured)
    = [{["mean_prior"; "sample_size_prior"]}] ∧
  (dom <$> _components Toy.sampled)
    = [{["draws"; "mean_prior"; "sample_size_prior"]}] ∧
  ¬ records_unchanged Toy.configured Toy.sampled.
Proof.
  split; [reflexivity|]. split; [reflexivity|]. split; [reflexivity|].
  intros Hsame.
  pose proof (Hsame 0 _ eq_refl) as Hrecord.
  apply (f_equal (fmap (λ c : gmap string value,
                          bool_decide (is_Some (c !! "draws")))))
    in Hrecord.
  vm_compute in Hrecord. discriminate Hrecord.
Qed.

Lemma component_spec_persists_witness :
  ∃ c c', _components Toy.configured !! 0 = Some c ∧
          _components (after [Toy.sample 1] Toy.configured) !! 0 = Some c' ∧
          same_spec c c'.
Proof.
  destruct (_components Toy.configured !! 0) as [c|] eqn:Hc; [|done].
  destruct (@component_spec_persists Toy.numpy Toy.boom Toy.configured [Toy.sample 1] 0 c Hc)
    as (c' & Hc' & Hspec).
  by exists c, c'.
Defined.

End Examples.

(** ** What the calls leave alone, continued *)

Module Untouched.
Section Untouched.
Context `{Boom}.
Import BetaBinomialMixture Properties Behaviour Logic Frame Calls Draws.
Import Storage Rows Sampling Data Allocation.

Lemma same_but_model_set s v : same_but_model s (set_boom_model v s).
Proof. by repeat split. Qed.

Lemma add_data_same_but_model t s :
  wp (add_data t) (λ _ s', same_but_model s s') s.
Proof. unfold add_data. wp_run; by repeat split. Qed.

(** [add_data] has no call of [warnings.warn]. *)
Lemma add_data_warnings t s : warnings (exec (add_data t) s) = warnings s.
Proof.
  change (wp (add_data t) (λ _ s', warnings s' = warnings s) s).
  unfold add_data. wp_run; done.
Qed.

(** [_create_storage] with a negative count: the first [np.empty] it
    reaches refuses, before anything is assigned. *)
Lemma create_storage_negative n s :
  (n < 0)%Z →
  wp (_create_storage n) (λ r s', r = Raise ValueError ∧ s' = s) s.
Proof.
  intros Hn. unfold _create_storage. wp_step. wp_step. wp_step.
  assert (∀ k, Np.empty refused junk n k = Raise ValueError) as Hempty.
  { intros k. unfold Np.empty. by destruct (Z.ltb_spec n 0); [|lia]. }
  destruct (length (_components s)) as [|L]; cbn [seq for_each].
  - wp_step. wp_step. wp_step. wp_step. by rewrite Hempty.
  - wp_step. wp_step. wp_step. by rewrite Hempty.
Qed.

Lemma primed_model s m : model_in_use s m → _boom_model (primed m s) = Some m.
Proof.
  unfold model_in_use, primed. destruct (_boom_model s) eqn:Hs; [|done].
  by intros ->.
Qed.

(** [mcmc] is its sampling loop run on the primed object. *)
Lemma mcmc_primed s m n ping seed Q :
  model_in_use s m →
  wp (sampling_loop n ping seed) Q (primed m s) →
  wp (mcmc n ping seed) Q s.
Proof.
  unfold model_in_use, primed. intros Hm Hloop. unfold mcmc.
  wp_step. wp_step. wp_step. destruct (_boom_model s) as [m'|].
  - by wp_step.
  - wp_step. apply build_boom_model_pure. rewrite Hm.
    wp_step. wp_step. by wp_step.
Qed.

#[local] Ltac held_leaf :=
  lazymatch goal with
  | |- wp _ _ _ => fail
  | |- _ =>
      first [ done
            | match goal with
              | Hheld : model_held _ _ |- _ =>
                  destruct Hheld as [[? ?] ?]; split; [by eexists|done]
              end ]
  end.

Lemma add_data_model_held t ws s :
  model_held ws s → wp (add_data t) (λ _ s', model_held ws s') s.
Proof. intros Hs. unfold add_data. wp_run; held_leaf. Qed.

Lemma create_storage_model_held n ws s :
  model_held ws s → wp (_create_storage n) (λ _ s', model_held ws s') s.
Proof.
  intros Hs. unfold _create_storage. wp_step. wp_step. wp_step.
  eapply wp_mono.
  - apply (wp_for_each_inv (model_held ws)); [done|].
    intros c s1 Hs1. wp_run; held_leaf.
  - intros [|]; cbv beta iota; intros s1 Hs1; wp_run; held_leaf.
Qed.

Lemma record_draw_model_held i ws s :
  model_held ws s → wp (_record_draw i) (λ _ s', model_held ws s') s.
Proof.
  intros Hs. unfold _record_draw. wp_step. wp_step. wp_step.
  eapply wp_mono.
  - apply (wp_for_each_inv (model_held ws)); [done|].
    intros c s1 Hs1. wp_run; held_leaf.
  - intros [|]; cbv beta iota; intros s1 Hs1; wp_run; held_leaf.
Qed.

Lemma sampling_loop_model_held n ping seed ws s :
  model_held ws s →
  wp (sampling_loop n ping seed) (λ _ s', model_held ws s') s.
Proof.
  intros Hs. unfold sampling_loop. wp_step.
  eapply wp_mono; [by apply create_storage_model_held|].
  intros [|] s1 Hs1; [|done].
  wp_step. eapply (wp_mono _ (λ _ s', model_held ws s')).
  { destruct seed; wp_run; held_leaf. }
  intros [|] s2 Hs2; [|done].
  apply (wp_for_each_inv (model_held ws)); [done|].
  intros i s3 Hs3. wp_run; try held_leaf.
  all: apply record_draw_model_held; held_leaf.
Qed.

Lemma mcmc_model_held n ping seed ws s :
  model_held ws s → wp (mcmc n ping seed) (λ _ s', model_held ws s') s.
Proof.
  intros Hs. pose proof Hs as [[m Hm] _].
  apply (mcmc_primed s m); [unfold model_in_use; by rewrite Hm|].
  unfold primed. rewrite Hm. by apply sampling_loop_model_held.
Qed.

Lemma perform_model_held c ws s :
  model_held ws s → model_held ws (exec (perform c) s).
Proof.
  destruct c as [p q k|t|n ping seed]; cbn [perform]; intros Hs.
  - by rewrite add_component_exec.
  - by apply add_data_model_held.
  - by apply mcmc_model_held.
Qed.

(** [mcmc] warns only when the object holds no model, and then holds one. *)
Lemma mcmc_warnings n ping seed s :
  wp (mcmc n ping seed)
     (λ _ s', warnings s' = warnings s ∨
              model_held (warnings s ++ [no_data_warning]) s') s.
Proof.
  destruct (_boom_model s) as [m|] eqn:Hs.
  - eapply wp_mono; [apply (mcmc_model_held n ping seed (warnings s))|].
    + split; [by eexists|done].
    + intros r s' [_ Hw]. by left.
  - unfold mcmc. wp_step. wp_step. wp_step. rewrite Hs.
    wp_step. apply build_boom_model_pure.
    destruct (eval _build_boom_model s) as [m|e]; [|by left].
    wp_step. wp_step. wp_step.
    eapply wp_mono; [apply (sampling_loop_model_held n ping seed
                              (warnings s ++ [no_data_warning]))|].
    + split; [by eexists|done].
    + intros r s' Hheld. by right.
Qed.

(** The held model is only ever advanced by its own methods. *)
#[local] Ltac advanced_leaf :=
  lazymatch goal with
  | |- wp _ _ _ => fail
  | |- _ =>
      first
        [ done
        | match goal with
          | Hadv : model_advanced _ _ _ |- _ =>
              destruct Hadv as [(? & Hheld & ?) ?];
              try congruence;
              repeat match goal with
                | Hm : the_model _ = Ok _ |- _ =>
                    unfold the_model in Hm; cbn in Hm;
                    rewrite Hheld in Hm; injection Hm as <-
                end;
              (split; [|done]); eexists; (split; [done|]);
              match goal with
              | Hp : model_add_data ?x ?xs ?ys ?zs = (_, ?m1)
                |- advanced _ ?m1 =>
                  replace m1 with (model_add_data x xs ys zs).2
                    by (by rewrite Hp);
                  by apply advanced_add_data
              | Hp : sample_posterior ?g ?x = (_, (_, ?m1))
                |- advanced _ ?m1 =>
                  replace m1 with (sample_posterior g x).2.2
                    by (by rewrite Hp);
                  by apply advanced_sample
              end
          end ]
  end.

Lemma add_data_model_advanced t m ws s :
  model_advanced m ws s → wp (add_data t) (λ _ s', model_advanced m ws s') s.
Proof. intros Hs. unfold add_data. wp_run; advanced_leaf. Qed.

Lemma create_storage_model_advanced n m ws s :
  model_advanced m ws s →
  wp (_create_storage n) (λ _ s', model_advanced m ws s') s.
Proof.
  intros Hs. unfold _create_storage. wp_step. wp_step. wp_step.
  eapply wp_mono.
  - apply (wp_for_each_inv (model_advanced m ws)); [done|].
    intros c s1 Hs1. wp_run; advanced_leaf.
  - intros [|]; cbv beta iota; intros s1 Hs1; wp_run; advanced_leaf.
Qed.

Lemma record_draw_model_advanced i m ws s :
  model_advanced m ws s →
  wp (_record_draw i) (λ _ s', model_advanced m ws s') s.
Proof.
  intros Hs. unfold _record_draw. wp_step. wp_step. wp_step.
  eapply wp_mono.
  - apply (wp_for_each_inv (model_advanced m ws)); [done|].
    intros c s1 Hs1. wp_run; advanced_leaf.
  - intros [|]; cbv beta iota; intros s1 Hs1; wp_run; advanced_leaf.
Qed.

Lemma sampling_loop_model_advanced n ping seed m ws s :
  model_advanced m ws s →
  wp (sampling_loop n ping seed) (λ _ s', model_advanced m ws s') s.
Proof.
  intros Hs. unfold sampling_loop. wp_step.
  eapply wp_mono; [by apply create_storage_model_advanced|].
  intros [|] s1 Hs1; [|done].
  wp_step. eapply (wp_mono _ (λ _ s', model_advanced m ws s')).
  { destruct seed; wp_run; advanced_leaf. }
  intros [|] s2 Hs2; [|done].
  apply (wp_for_each_inv (model_advanced m ws)); [done|].
  intros i s3 Hs3. wp_run; try advanced_leaf.
  all: apply record_draw_model_advanced; advanced_leaf.
Qed.

Lemma mcmc_model_advanced n ping seed m ws s :
  model_advanced m ws s →
  wp (mcmc n ping seed) (λ _ s', model_advanced m ws s') s.
Proof.
  intros Hs. pose proof Hs as [(m' & Hm' & _) _].
  apply (mcmc_primed s m'); [unfold model_in_use; by rewrite Hm'|].
  unfold primed. rewrite Hm'. by apply sampling_loop_model_advanced.
Qed.

Lemma perform_model_advanced c m ws s :
  model_advanced m ws s → model_advanced m ws (exec (perform c) s).
Proof.
  destruct c as [p q k|t|n ping seed]; cbn [perform]; intros Hs.
  - by rewrite add_component_exec.
  - by apply add_data_model_advanced.
  - by apply mcmc_model_advanced.
Qed.

End Untouched.
End Untouched.

(** ** The model the object builds *)

Module Build.
Section Build.
Context `{Boom}.
Import BetaBinomialMixture Properties Behaviour Logic Frame Calls.

Lemma mapM_ext_Forall2 {A A' B} (f : A → result B) (g : A' → result B) l k :
  Forall2 (λ x y, f x = g y) l k → mapM f l = mapM g k.
Proof. induction 1 as [|x y l k Hxy _ IH]; cbn; [done|]. by rewrite Hxy, IH. Qed.

Lemma holds_spec_same_spec c c' spec :
  holds_spec c spec → same_spec c c' → holds_spec c' spec.
Proof. intros [Hm Hs] (Hm' & Hs' & _). split; congruence. Qed.

Lemma built_from_evolves specs s s' :
  built_from specs s → evolves s s' → built_from specs s'.
Proof.
  intros [Hcomps Hcounts] (Hc & Hlen & _ & Hkeeps). split; [|congruence].
  apply Forall2_same_length_lookup in Hcomps as [Hl Hall].
  apply Forall2_same_length_lookup. split; [congruence|].
  intros i c' spec Hc' Hspec.
  destruct (_components s !! i) as [c|] eqn:Hi.
  - destruct (Hkeeps i c Hi) as (c'' & Hc'' & Hsame). simplify_eq.
    eauto using holds_spec_same_spec.
  - apply lookup_ge_None in Hi. apply lookup_lt_Some in Hc'. lia.
Qed.

Lemma built_from_perform specs c s :
  built_from specs s →
  built_from (specs ++ added [c]) (exec (perform c) s).
Proof.
  intros Hs. destruct c as [p q k|t|n ping seed]; cbn [perform added].
  - destruct Hs as [Hcomps Hcounts]. rewrite add_component_exec.
    split; cbn.
    + apply Forall2_app; [done|]. by repeat constructor.
    + by rewrite fmap_app, Hcounts.
  - rewrite app_nil_r. eauto using built_from_evolves, add_data_evolves.
  - rewrite app_nil_r. eauto using built_from_evolves, mcmc_evolves.
Qed.

Lemma added_cons c calls : added (c :: calls) = added [c] ++ added calls.
Proof. by destruct c. Qed.

Lemma built_from_after calls specs s :
  built_from specs s → built_from (specs ++ added calls) (after calls s).
Proof.
  revert specs s. induction calls as [|c calls IH]; intros specs s Hs.
  - by rewrite app_nil_r.
  - rewrite after_cons, added_cons, app_assoc.
    by apply IH, built_from_perform.
Qed.

Lemma built_from_init r : built_from [] (__init__ r).
Proof. split; [constructor|done]. Qed.

Lemma build_built_from specs s :
  built_from specs s → eval _build_boom_model s = model_of specs.
Proof.
  intros [Hcomps Hcounts].
  unfold eval, _build_boom_model, model_of, mbind, M_bind, bind, get, lift.
  cbn. rewrite Hcounts.
  destruct (mixing_distribution _) as [mixing|]; cbn; [|done].
  rewrite (mapM_ext_Forall2 _ (λ spec, component_model spec.1.1 spec.1.2)
             (_components s) specs).
  - by destruct (mapM _ specs).
  - eapply Forall2_impl; [done|]. intros c spec [Hm Hs].
    unfold dict_getitem. by rewrite Hm, Hs.
Qed.

End Build.
End Build.

(** ** What a run records *)

Module Recording.
Section Recording.
Context `{Boom}.
Import BetaBinomialMixture Properties Behaviour Logic Frame Calls Draws.
Import Storage Rows Sampling Data Untouched.

(** An assignment to row [i] leaves the other rows and stores the
    sequence, broadcast if need be, in row [i]. *)
Lemma set_row_cells {A} (i : nat) (v : list A) (m m' : Np.ndarray A) :
  Np.set_row i v m = Ok m' →
  (∀ r j, r ≠ i → Np.cell m' r j = Np.cell m r j) ∧
  (∀ j x, stored (Np.ncols m) v j = Some x → Np.cell m' i j = x).
Proof.
  unfold Np.set_row, Np.broadcast_to, stored. case_decide; [|done].
  case_decide as Hlen; cbn.
  - intros [= <-]; cbn. split.
    + intros r j Hr. by case_decide.
    + intros j x Hx. case_decide; [|done]. by rewrite Hx.
  - destruct v as [|x0 [|x1 v]]; cbn; try done.
    intros [= <-]; cbn. split.
    + intros r j Hr. by case_decide.
    + intros j x [= <-]. by case_decide.
Qed.

Lemma stored_fits {A} (k : nat) (p : list A) (j : nat) :
  length p = k ∨ length p = 1 → j < k → is_Some (stored k p j).
Proof.
  unfold stored. intros Hlen Hj. case_decide.
  - apply lookup_lt_is_Some. lia.
  - destruct Hlen as [?|Hone]; [done|]. by destruct p.
Qed.

Lemma record_draw_records i n k s m p :
  _boom_model s = Some m → storage_shaped n k s → i < n →
  forallb (λ c, is_ok (component_a m c) && is_ok (component_b m c))
          (seq 0 (length (_components s))) = true →
  mixing_probs m = Ok p → length p = k ∨ length p = 1 →
  wp (_record_draw i)
     (λ r s', r = Ok () ∧ only_storage s s' ∧ storage_shaped n k s' ∧
              row_recorded k m i s' ∧ rows_kept i s s') s.
Proof.
  intros Hm Hshaped Hi Hacc Hp Hlen.
  unfold _record_draw. wp_step. wp_step. wp_step.
  eapply wp_mono.
  - apply (wp_for_range
             (λ c s',
                only_storage s s' ∧ storage_shaped n k s' ∧
                _mixing_weights s' = _mixing_weights s ∧
                (∀ j comp d, j < c → _components s' !! j = Some comp →
                   comp !! "draws" = Some (VArray d) →
                   component_a m j = Ok (Np.cell d i 0) ∧
                   component_b m j = Ok (Np.cell d i 1)) ∧
                (∀ j comp' d', _components s' !! j = Some comp' →
                   comp' !! "draws" = Some (VArray d') →
                   ∃ comp d, _components s !! j = Some comp ∧
                             comp !! "draws" = Some (VArray d) ∧
                             ∀ r col, r ≠ i →
                               Np.cell d' r col = Np.cell d r col))
             (λ _ _, False)).
    + split; [apply only_storage_refl|]. split; [done|]. split; [done|].
      split; [intros; lia|]. intros j comp' d' Hj Hd'. by exists comp', d'.
    + intros c s1 Hc (Honly & Hsh & Hws & Hrec & Hkept).
      pose proof Hsh as [Hcomps _].
      wp_step. wp_step.
      destruct (_components s1 !! c) as [component|] eqn:Hcomp.
      2: { apply lookup_ge_None in Hcomp.
           destruct Honly as (? & ? & ? & ->). cbn in Hcomp. lia. }
      destruct (Hcomps c component Hcomp) as (d & Hd & Hdshape).
      destruct (accessors_ok m _ c Hacc) as (va & vb & Hva & Hvb); [lia|].
      destruct (set_row_shape i [va; vb] d n 2 Hdshape Hi) as (d' & Hd' & ?);
        [by left|].
      pose proof (set_row_cells _ _ _ _ Hd') as [Hother Hrow].
      assert (Np.ncols d = 2) as Hcols
        by (unfold Np.shape in Hdshape; by simplify_eq).
      rewrite Hcols in Hrow.
      assert (the_model s1 = Ok m) as Hmodel.
      { destruct Honly as (? & ? & ? & ->). unfold the_model; cbn.
        by rewrite Hm. }
      wp_step. wp_step. rewrite Hmodel.
      wp_step. wp_step. rewrite Hva.
      wp_step. wp_step. rewrite Hvb.
      wp_step. wp_step. unfold dict_getitem. rewrite Hd. cbn.
      wp_step. wp_step. rewrite Hd'.
      wp_step. split; [|split; [|split; [done|split]]].
      * eapply only_storage_trans; [done|].
        apply only_storage_components. by rewrite length_insert.
      * split; [|by destruct Hsh]. intros j cj; cbn.
        destruct (decide (c = j)) as [->|].
        -- rewrite list_lookup_insert_eq by eauto using lookup_lt_Some.
           intros [= <-]. exists d'. by rewrite lookup_insert_eq.
        -- rewrite list_lookup_insert_ne by done. apply Hcomps.
      * intros j comp dj Hj; cbn. destruct (decide (c = j)) as [->|].
        -- rewrite list_lookup_insert_eq by eauto using lookup_lt_Some.
           intros [= <-]. rewrite lookup_insert_eq. intros [= <-].
           by rewrite (Hrow 0 va), (Hrow 1 vb).
        -- rewrite list_lookup_insert_ne by done. apply Hrec. lia.
      * intros j comp' dj; cbn. destruct (decide (c = j)) as [->|].
        -- rewrite list_lookup_insert_eq by eauto using lookup_lt_Some.
           intros [= <-]. rewrite lookup_insert_eq. intros [= <-].
           destruct (Hkept j component d Hcomp Hd) as (c0 & d0 & ? & ? & Hsame).
           exists c0, d0. split; [done|]. split; [done|].
           intros r col Hr. rewrite Hother by done. by apply Hsame.
        -- rewrite list_lookup_insert_ne by done. apply Hkept.
  - intros [|]; cbv beta iota; [|done].
    intros s1 (Honly & Hsh & Hws & Hrec & Hkept).
    pose proof Hsh as (Hcomps & (w & Hw & Hwshape)).
    destruct (set_row_shape i p w n k Hwshape Hi Hlen) as (w' & Hw' & ?).
    pose proof (set_row_cells _ _ _ _ Hw') as [Hother Hrow].
    assert (Np.ncols w = k) as Hcols
      by (unfold Np.shape in Hwshape; by simplify_eq).
    rewrite Hcols in Hrow.
    wp_step. wp_step. wp_step. wp_step.
    replace (the_model s1) with (Ok m : result Model).
    2: { destruct Honly as (? & ? & ? & ->). unfold the_model; cbn.
         by rewrite Hm. }
    wp_step. wp_step. rewrite Hp.
    wp_step. wp_step. unfold the_mixing_weights. rewrite Hw.
    wp_step. wp_step. rewrite Hw'.
    wp_step. split; [done|]. split; [|split; [|split]].
    + eapply only_storage_trans; [done|]. apply only_storage_weights.
    + split; [done|]. by exists w'.
    + split.
      * intros c comp d Hc; cbn in Hc. apply Hrec; [|done].
        apply lookup_lt_Some in Hc.
        destruct Honly as (? & ? & ? & ->). cbn in Hc. lia.
      * intros w0 j; cbn. intros [= <-] Hj. exists p. split; [done|].
        destruct (stored_fits k p j Hlen Hj) as [y Hy].
        by rewrite Hy, (Hrow j y Hy).
    + split; [done|]. intros w0; cbn. intros [= <-].
      exists w. split; [congruence|]. intros r j Hr. by apply Hother.
Qed.

Lemma sweeps_snoc i g0 m0 :
  sweeps (S i) g0 m0 =
  (sample_posterior (sweeps i g0 m0).1 (sweeps i g0 m0).2).2.
Proof.
  revert g0 m0. induction i as [|i IH]; intros g0 m0.
  - cbn. by destruct (sample_posterior g0 m0) as [u [g' m']].
  - change (sweeps (S (S i)) g0 m0)
      with (let '(_, (g', m')) := sample_posterior g0 m0 in
            sweeps (S i) g' m').
    change (sweeps (S i) g0 m0)
      with (let '(_, (g', m')) := sample_posterior g0 m0 in sweeps i g' m').
    destruct (sample_posterior g0 m0) as [u [g' m']]. apply IH.
Qed.

Lemma row_recorded_kept k m i' i s s' :
  i' ≠ i → rows_kept i s s' → row_recorded k m i' s → row_recorded k m i' s'.
Proof.
  intros Hne [Hkc Hkw] [Hrc Hrw]. split.
  - intros c comp' d' Hc Hd.
    destruct (Hkc c comp' d' Hc Hd) as (comp & d & Hc0 & Hd0 & Hsame).
    rewrite !Hsame by done. eauto.
  - intros w' j Hw' Hj. destruct (Hkw w' Hw') as (w & Hw & Hsame).
    rewrite Hsame by done. eauto.
Qed.

Lemma sampling_loop_records n ping seed s m0 :
  _boom_model s = Some m0 → storage_fits n s = true →
  engine_cooperates (length (_components s))
    (number_of_mixture_components s) (Z.to_nat n)
    (seeded seed (rng s)) m0 = true →
  wp (sampling_loop n ping seed)
     (λ r s',
        r = Ok () ∧
        rng s' = (sweeps (Z.to_nat n) (seeded seed (rng s)) m0).1 ∧
        _boom_model s' =
          Some (sweeps (Z.to_nat n) (seeded seed (rng s)) m0).2 ∧
        warnings s' = warnings s ∧
        terminal s' = reported (Z.to_nat n) ping (terminal s) ∧
        draws_recorded (Z.to_nat n) (number_of_mixture_components s)
          (seeded seed (rng s)) m0 s')
     s.
Proof.
  intros Hm Hn Hcoop. unfold sampling_loop.
  set (N := Z.to_nat n) in *.
  set (L := length (_components s)) in *.
  set (k := number_of_mixture_components s) in *.
  set (g0 := seeded seed (rng s)) in *.
  wp_step. eapply wp_mono; [by apply create_storage_total|].
  intros r s1 (-> & Honly1 & Hshaped1). fold N in Hshaped1. fold k in Hshaped1.
  wp_step.
  eapply (wp_mono _ (λ r s', r = Ok () ∧ s' = set_rng g0 s1)).
  { unfold g0, seeded. destruct Honly1 as (? & ? & ? & ->).
    destruct seed; wp_run; by split. }
  intros r s2 (-> & ->).
  eapply wp_mono.
  - apply (wp_for_range
             (λ i s',
                ∃ g m, _boom_model s' = Some m ∧ rng s' = g ∧
                       sweeps i g0 m0 = (g, m) ∧
                       engine_cooperates L k (N - i) g m = true ∧
                       storage_shaped N k s' ∧
                       length (_components s') = L ∧
                       warnings s' = warnings s ∧
                       terminal s' = reported i ping (terminal s) ∧
                       ∀ i', i' < i →
                             row_recorded k (sweeps (S i') g0 m0).2 i' s')
             (λ _ _, False)).
    + exists g0, m0. destruct Honly1 as (? & ? & ? & ->); cbn.
      rewrite Nat.sub_0_r. do 8 (split; [done|]). intros; lia.
    + intros i s3 Hi
        (g & m & Hm3 & Hg3 & Hsw & Hcoop3 & Hsh & Hlen & Hwarn & Hout
           & Hrows).
      replace (N - i) with (S (N - S i)) in Hcoop3 by lia.
      apply engine_cooperates_step in Hcoop3
        as (u & g' & m' & p & Hsample & Hacc & Hp & Hplen & Hcoop').
      assert (sweeps (S i) g0 m0 = (g', m')) as Hsw'.
      { by rewrite sweeps_snoc, Hsw; cbn; rewrite Hsample. }
      wp_step. wp_step. wp_step. wp_step. wp_step. wp_step.
      unfold the_model; cbn -[seq]. rewrite Hm3, Hg3, Hsample.
      wp_step. wp_step. wp_step. wp_step. destruct u.
      eapply wp_mono.
      * eapply (record_draw_records i N k _ m' p); cbn -[seq]; try done; [lia|].
        by rewrite Hlen.
      * intros r s4 (-> & Honly & Hsh4 & Hrow & Hkept).
        exists g', m'.
        assert (∀ i', i' < S i →
                      row_recorded k (sweeps (S i') g0 m0).2 i' s4) as Hrows'.
        { intros i' Hi'. destruct (decide (i' = i)) as [->|Hne].
          - by rewrite Hsw'.
          - eapply row_recorded_kept; [done..|].
            apply (Hrows i'). lia. }
        destruct Honly as (? & ? & Hl4 & ->); cbn -[seq] in *.
        do 4 (split; [done|]). split; [done|]. split; [congruence|].
        split; [done|]. split; [|done].
        rewrite Hout. unfold reported. by rewrite seq_S, foldl_app.
  - intros [[]|]; cbv beta iota; [|done].
    intros s3 (g & m & Hm3 & Hg3 & Hsw & _ & Hsh & _ & Hwarn & Hout & Hrows).
    rewrite Nat.add_0_l in Hsw, Hrows, Hout. rewrite Hsw; cbn.
    do 5 (split; [done|]). by split.
Qed.

End Recording.
End Recording.

(** ** Further properties of the class, on any engine *)

Section Behaviours.
Context `{Boom}.
Import BetaBinomialMixture Properties Behaviour Logic Frame Calls Draws.
Import Storage Rows Sampling Data Allocation Untouched Build Recording.

Lemma primed_fields s m :
  _components (primed m s) = _components s ∧
  _mixing_distribution_prior_counts (primed m s)
    = _mixing_distribution_prior_counts s ∧
  _mixing_weights (primed m s) = _mixing_weights s ∧
  rng (primed m s) = rng s.
Proof. unfold primed. by destruct (_boom_model s). Qed.

Lemma primed_storage_fits n s m :
  storage_fits n (primed m s) = storage_fits n s.
Proof. unfold primed. by destruct (_boom_model s). Qed.

Lemma storage_fits_nonneg n s : storage_fits n s = true → (0 ≤ n)%Z.
Proof. intros [_ Hw]%storage_fits_tables. by eapply allocates_nonneg. Qed.

Lemma storage_shaped_rows n k s :
  (0 ≤ n)%Z → storage_shaped (Z.to_nat n) k s → storage_rows n s.
Proof.
  intros Hn [Hcomps (w & Hw & Hshape)]. split.
  - intros c [j Hj]%list_elem_of_lookup.
    destruct (Hcomps j c Hj) as (d & Hd & Hdshape).
    exists d. split; [done|]. unfold Np.shape in Hdshape.
    injection Hdshape as -> _. lia.
  - exists w. split; [done|]. unfold Np.shape in Hshape.
    injection Hshape as -> _. lia.
Qed.

(** Once storage is allocated the loop keeps its rows, whether it runs
    to its end or the engine raises. *)
Lemma sampling_loop_rows_always n ping seed s :
  storage_fits n s = true →
  wp (sampling_loop n ping seed) (λ _ s', storage_rows n s') s.
Proof.
  intros Hfits. pose proof (storage_fits_nonneg n s Hfits) as Hn.
  unfold sampling_loop. wp_step.
  eapply wp_mono; [by apply create_storage_total|].
  intros r s1 (-> & _ & Hs1%storage_shaped_rows); [|done].
  wp_step. eapply (wp_mono _ (λ _ s', storage_rows n s')).
  { destruct seed; wp_run; done. }
  intros [|] s2 Hs2; [|done].
  apply (wp_for_each_inv (storage_rows n)); [done|].
  intros i s3 Hs3. wp_run; try done.
  all: by apply record_draw_rows.
Qed.

(** X1. With a model in use (held, or built by the call), a count of
    iterations for which numpy allocates the draw tables and an engine
    that cooperates, [mcmc] returns, leaves the engine as [niter] sweeps
    leave it, and row [i] of every draw table holds what the model hands
    out after sweep [i + 1]: the (a, b) of each component in its table,
    the mixing probabilities in the table of mixing weights. *)
Theorem mcmc_records_draws (s : state) (n : Z) (ping seed : option Z)
    (m : Model) :
  model_in_use s m →
  storage_fits n s = true →
  engine_cooperates (length (_components s))
    (number_of_mixture_components s) (Z.to_nat n)
    (seeded seed (rng s)) m = true →
  eval (mcmc n ping seed) s = Ok () ∧
  rng (exec (mcmc n ping seed) s)
    = (sweeps (Z.to_nat n) (seeded seed (rng s)) m).1 ∧
  _boom_model (exec (mcmc n ping seed) s)
    = Some (sweeps (Z.to_nat n) (seeded seed (rng s)) m).2 ∧
  draws_recorded (Z.to_nat n) (number_of_mixture_components s)
    (seeded seed (rng s)) m (exec (mcmc n ping seed) s).
Proof.
  intros Hm Hn Hcoop. rewrite <- (primed_storage_fits n s m) in Hn.
  destruct (primed_fields s m) as (Hc & Hk & _ & Hg).
  pose proof (sampling_loop_records n ping seed (primed m s) m
                (primed_model s m Hm) Hn) as Hloop.
  unfold number_of_mixture_components in *. rewrite Hc, Hk, Hg in Hloop.
  specialize (Hloop Hcoop).
  apply (mcmc_primed s m n ping seed) in Hloop; [|done].
  unfold wp in Hloop. by destruct Hloop as (? & ? & ? & _ & _ & ?).
Qed.

(** X2. A negative [niter] is refused with [ValueError] by the first
    allocation: the components, their draw tables and the mixing weights
    stay as they were. The model in use is held by then. *)
Theorem mcmc_negative_niter (s : state) (n : Z) (ping seed : option Z)
    (m : Model) :
  model_in_use s m →
  (n < 0)%Z →
  eval (mcmc n ping seed) s = Raise ValueError ∧
  _components (exec (mcmc n ping seed) s) = _components s ∧
  _mixing_weights (exec (mcmc n ping seed) s) = _mixing_weights s ∧
  _boom_model (exec (mcmc n ping seed) s) = Some m.
Proof.
  intros Hm Hn.
  change (wp (mcmc n ping seed)
            (λ r s', r = Raise ValueError ∧
                     _components s' = _components s ∧
                     _mixing_weights s' = _mixing_weights s ∧
                     _boom_model s' = Some m) s).
  apply (mcmc_primed s m); [done|].
  unfold sampling_loop. wp_step.
  eapply wp_mono; [by apply create_storage_negative|].
  intros r s1 [-> ->].
  destruct (primed_fields s m) as (Hc & _ & Hw & _).
  by rewrite Hc, Hw, primed_model.
Qed.

(** X3. As soon as [mcmc] has a model in use and a count of iterations
    for which numpy allocates the draw tables, [niter] afterwards is that
    count and every draw table has that many rows, also when the engine
    raises in the middle of the run: [niter] counts allocated rows, not
    completed iterations. *)
Theorem niter_counts_allocated_rows (s : state) (n : Z)
    (ping seed : option Z) (m : Model) :
  model_in_use s m →
  storage_fits n s = true →
  niter (exec (mcmc n ping seed) s) = Ok (Z.to_nat n) ∧
  storage_rows n (exec (mcmc n ping seed) s).
Proof.
  intros Hm Hn.
  assert (storage_rows n (exec (mcmc n ping seed) s)) as Hrows.
  { change (wp (mcmc n ping seed) (λ _ s', storage_rows n s') s).
    apply (mcmc_primed s m); [done|]. apply sampling_loop_rows_always.
    by rewrite primed_storage_fits. }
  split; [|done]. destruct Hrows as [_ (w & Hw & Hnw)].
  unfold niter. rewrite Hw. f_equal. lia.
Qed.

(** X4. Whatever the table and whatever the outcome, [add_data] changes
    no attribute of the object but the engine model it holds: the
    component records with their draw tables, the prior counts and the
    mixing weights stay. *)
Theorem add_data_changes_only_model (t : table) (s : state) :
  same_but_model s (exec (add_data t) s).
Proof. apply add_data_same_but_model. Qed.

(** X5. On an object made by any calls on a fresh one, the model
    [_build_boom_model] builds is the engine's model of the priors and
    prior counts given to the [add_component] calls, in call order. *)
Theorem model_built_from_added_components (r : Rng) (calls : list call) :
  eval _build_boom_model (after calls (__init__ r)) = model_of (added calls).
Proof.
  apply build_built_from.
  apply (built_from_after calls [] (__init__ r)), built_from_init.
Qed.

(** X6. An object that holds a model is never given another: after any
    further calls it holds that model, advanced only by the calls of the
    model's own [add_data] and [sample_posterior] that [add_data] and
    [mcmc] make, and the class has not issued its no-data warning
    again. *)
Theorem model_kept_without_warning (s : state) (calls : list call)
    (m : Model) :
  _boom_model s = Some m →
  (∃ m', _boom_model (after calls s) = Some m' ∧ advanced m m') ∧
  warnings (after calls s) = warnings s.
Proof.
  intros Hs.
  apply (after_ind (model_advanced m (warnings s))).
  - intros c s0. apply perform_model_advanced.
  - split; [|done]. exists m. split; [done|constructor].
Qed.

(** X7. Whatever is called on a fresh object, it warns at most once, and
    has a model once it has warned. *)
Theorem warned_at_most_once (r : Rng) (calls : list call) :
  warnings (after calls (__init__ r)) = [] ∨
  (warnings (after calls (__init__ r)) = [no_data_warning] ∧
   is_Some (_boom_model (after calls (__init__ r)))).
Proof.
  apply (after_ind (λ s, warnings s = [] ∨
                         (warnings s = [no_data_warning] ∧
                          is_Some (_boom_model s)))); [|by left].
  intros c s [Hnone|[Hone Hmodel]].
  - destruct c as [p q k|t|n ping seed]; cbn [perform].
    + left. by rewrite add_component_exec.
    + left. by rewrite add_data_warnings.
    + destruct (mcmc_warnings n ping seed s) as [Hsame|[Hm Hw]].
      * left. congruence.
      * right. rewrite Hnone in Hw. by split.
  - right. destruct (perform_model_held c [no_data_warning] s) as [? ?]; by split.
Qed.

(** X8. When [mcmc] returns on an object made by calls on a fresh one,
    [niter] is the requested count and [mixing_weights] is a table of
    that many rows and one column per [add_component] call. *)
Theorem mixing_weights_shape_after_mcmc (r : Rng) (calls : list call)
    (n : Z) (ping seed : option Z) :
  eval (mcmc n ping seed) (after calls (__init__ r)) = Ok () →
  niter (exec (mcmc n ping seed) (after calls (__init__ r)))
    = Ok (Z.to_nat n) ∧
  ∃ w, mixing_weights (exec (mcmc n ping seed) (after calls (__init__ r)))
         = Ok (Some w) ∧
       Np.shape w = (Z.to_nat n, add_component_calls calls).
Proof.
  intros Hok.
  destruct (after_mcmc_shapes r calls n ping seed Hok) as (w & Hw & Hn & Hsh).
  rewrite after_app in Hw, Hn. split; [done|]. by exists w.
Qed.

(** X9. [add_component] after a run that returned: [niter] is 0 again
    and [mixing_weights] is [None], while every earlier component keeps
    its record with its table of [n] rows and the new record has no draw
    table. *)
Theorem add_component_after_sampling (s : state) (n : Z)
    (ping seed : option Z) (p q : Prior) (k : float) :
  eval (mcmc n ping seed) s = Ok () →
  niter (exec (add_component p q k) (exec (mcmc n ping seed) s)) = Ok 0 ∧
  mixing_weights (exec (add_component p q k) (exec (mcmc n ping seed) s))
    = Ok None ∧
  (∀ i c, _components (exec (mcmc n ping seed) s) !! i = Some c →
          _components (exec (add_component p q k)
                         (exec (mcmc n ping seed) s)) !! i = Some c ∧
          has_rows n c) ∧
  ∃ c, _components (exec (add_component p q k) (exec (mcmc n ping seed) s))
         !! length (_components s) = Some c ∧
       c !! "draws" = None.
Proof.
  intros Hok. pose proof (mcmc_rows n ping seed s Hok) as [Hrows _].
  destruct (mcmc_evolves n ping seed s) as (_ & Hlen & _).
  rewrite add_component_exec; cbn. split; [done|]. split; [done|]. split.
  - intros i c Hc. split; [by apply lookup_app_l_Some|].
    by eapply Hrows, list_elem_of_lookup_2.
  - eexists. rewrite <- Hlen. split; [apply list_lookup_middle; done|].
    by rewrite !lookup_insert_ne, lookup_empty.
Qed.

Lemma no_component_weights calls s :
  add_component_calls calls = 0 → mcmc_calls calls = 0 →
  _mixing_weights (after calls s) = _mixing_weights s.
Proof.
  revert s. induction calls as [|c calls IH]; intros s Hadd Hmc; [done|].
  rewrite after_cons. unfold add_component_calls, mcmc_calls in *.
  cbn [List.filter] in Hadd, Hmc.
  destruct c as [p q k|t|n ping seed];
    cbn [is_add_component is_mcmc perform length] in *; [done| |done].
  rewrite IH by done. apply add_data_weights.
Qed.

(** X10. Until the first [add_component] or [mcmc], [_mixing_weights]
    has never been assigned: [niter], [mixing_weights] and the four draw
    matrices all raise [AttributeError]. *)
Theorem unassigned_before_first_component (r : Rng) (calls : list call) :
  add_component_calls calls = 0 →
  mcmc_calls calls = 0 →
  niter (after calls (__init__ r)) = Raise AttributeError ∧
  mixing_weights (after calls (__init__ r)) = Raise AttributeError ∧
  a (after calls (__init__ r)) = Raise AttributeError ∧
  b (after calls (__init__ r)) = Raise AttributeError ∧
  means (after calls (__init__ r)) = Raise AttributeError ∧
  sample_sizes (after calls (__init__ r)) = Raise AttributeError.
Proof.
  intros Hadd Hmc.
  pose proof (no_component_weights calls (__init__ r) Hadd Hmc) as Hw.
  unfold means, sample_sizes, a, b, niter, mixing_weights.
  by rewrite Hw.
Qed.

Lemma b_no_components s n :
  weights_allocated s →
  (∀ w, _mixing_weights s = Some (Some w) →
        Np.ncols w = number_of_mixture_components s) →
  niter s = Ok n → number_of_mixture_components s = 0 →
  b s = Ok (Np.mk_ndarray n 0 junk).
Proof.
  intros Halloc Hcols Hn Hk. unfold b. rewrite Hn; cbn.
  rewrite (answer_allocated s n) by done; cbn. by rewrite Hk.
Qed.

(** X11. The mixture without components: when [mcmc] returns on an
    object that never had [add_component] called, [a], [b], [means] and
    [sample_sizes] are arrays of [niter] rows and no column. *)
Theorem matrices_without_components (r : Rng) (calls : list call) (n : Z)
    (ping seed : option Z) :
  add_component_calls calls = 0 →
  eval (mcmc n ping seed) (after calls (__init__ r)) = Ok () →
  yields_shape (a (exec (mcmc n ping seed) (after calls (__init__ r))))
    (Z.to_nat n) 0 ∧
  yields_shape (b (exec (mcmc n ping seed) (after calls (__init__ r))))
    (Z.to_nat n) 0 ∧
  yields_shape (means (exec (mcmc n ping seed) (after calls (__init__ r))))
    (Z.to_nat n) 0 ∧
  yields_shape
    (sample_sizes (exec (mcmc n ping seed) (after calls (__init__ r))))
    (Z.to_nat n) 0.
Proof.
  intros Hadd Hok.
  destruct (after_mcmc_shapes r calls n ping seed Hok) as (w & _ & Hn & _).
  rewrite after_app in Hn. cbn in Hn.
  set (s := exec (mcmc n ping seed) (after calls (__init__ r))) in *.
  assert (number_of_mixture_components s = 0) as Hk.
  { unfold s. change (exec (mcmc n ping seed) (after calls (__init__ r)))
      with (after [Mcmc n ping seed] (after calls (__init__ r))).
    rewrite <- after_app, after_counts. unfold add_component_calls in *.
    rewrite List.filter_app, length_app, Hadd. done. }
  assert (s = after (calls ++ [Mcmc n ping seed]) (__init__ r)) as Hs
    by by rewrite after_app.
  assert (weights_allocated s) as Halloc
    by (rewrite Hs; apply reachable_weights_allocated).
  assert (∀ w, _mixing_weights s = Some (Some w) →
               Np.ncols w = number_of_mixture_components s) as Hcols
    by (rewrite Hs; apply reachable_weights_columns).
  pose proof (a_no_components s _ Halloc Hcols Hn Hk) as Ha.
  pose proof (b_no_components s _ Halloc Hcols Hn Hk) as Hb.
  unfold means, sample_sizes, yields_shape. rewrite Ha, Hb; cbn.
  unfold Np.map2, Np.broadcast_dim; cbn.
  rewrite !decide_True by done; cbn. rewrite !decide_True by done; cbn.
  repeat split; by eexists.
Qed.


(** X13. After any calls on a fresh object the component records and
    the prior counts are those of the [add_component] calls, in call
    order: record [i] holds the two priors of the [i]-th such call and
    prior count [i] is its [prior_count]. *)
Theorem components_are_added_specs (r : Rng) (calls : list call) :
  built_from (added calls) (after calls (__init__ r)).
Proof. apply (built_from_after calls [] (__init__ r)), built_from_init. Qed.

End Behaviours.

(** ** Further runs on the small engine *)

Section Runs.
#[local] Existing Instance Toy.numpy.
#[local] Existing Instance Toy.boom.
Import BetaBinomialMixture Properties Behaviour.

Lemma mcmc_records_draws_witness :
  model_in_use ToyRuns.with_data
    (Toy.mk_model 2 [(10, 4, 28); (5, 0, 2)]%Z 0) ∧
  eval (mcmc 2 None (Some 5%Z)) ToyRuns.with_data = Ok () ∧
  rng (exec (mcmc 2 None (Some 5%Z)) ToyRuns.with_data) = 7%Z ∧
  _boom_model (exec (mcmc 2 None (Some 5%Z)) ToyRuns.with_data)
    = Some (Toy.mk_model 2 [(10, 4, 28); (5, 0, 2)]%Z 2) ∧
  draws_recorded 2 2 5%Z (Toy.mk_model 2 [(10, 4, 28); (5, 0, 2)]%Z 0)
    (exec (mcmc 2 None (Some 5%Z)) ToyRuns.with_data).
Proof.
  split; [reflexivity|].
  apply (@mcmc_records_draws Toy.numpy Toy.boom ToyRuns.with_data 2 None
           (Some 5%Z) (Toy.mk_model 2 [(10, 4, 28); (5, 0, 2)]%Z 0));
    [reflexivity|reflexivity|reflexivity].
Defined.

Lemma mcmc_negative_niter_witness :
  model_in_use Toy.sampled (Toy.mk_model 1 [] 1) ∧
  eval (mcmc (-1) None None) Toy.sampled = Raise ValueError ∧
  _components (exec (mcmc (-1) None None) Toy.sampled)
    = _components Toy.sampled ∧
  _mixing_weights (exec (mcmc (-1) None None) Toy.sampled)
    = _mixing_weights Toy.sampled ∧
  _boom_model (exec (mcmc (-1) None None) Toy.sampled)
    = Some (Toy.mk_model 1 [] 1).
Proof.
  split; [reflexivity|].
  apply (@mcmc_negative_niter Toy.numpy Toy.boom Toy.sampled (-1) None None
           (Toy.mk_model 1 [] 1)); [reflexivity|lia].
Defined.

Lemma niter_counts_allocated_rows_witness :
  model_in_use ToyRuns.outgrown
    (Toy.mk_model 1 [(10, 4, 28); (5, 0, 2)]%Z 0) ∧
  eval (mcmc 2 None None) ToyRuns.outgrown = Raise (EngineError 1) ∧
  niter (exec (mcmc 2 None None) ToyRuns.outgrown) = Ok 2 ∧
  storage_rows 2 (exec (mcmc 2 None None) ToyRuns.outgrown).
Proof.
  split; [reflexivity|]. split; [reflexivity|].
  apply (@niter_counts_allocated_rows Toy.numpy Toy.boom ToyRuns.outgrown 2
           None None (Toy.mk_model 1 [(10, 4, 28); (5, 0, 2)]%Z 0));
    [reflexivity|reflexivity].
Defined.

Lemma model_kept_without_warning_witness :
  _boom_model Toy.sampled = Some (Toy.mk_model 1 [] 1) ∧
  (∃ m', _boom_model
           (after [Toy.sample 1; Toy.one_component; Toy.sample 2] Toy.sampled)
           = Some m' ∧
         advanced (Toy.mk_model 1 [] 1) m') ∧
  warnings (after [Toy.sample 1; Toy.one_component; Toy.sample 2] Toy.sampled)
    = [no_data_warning].
Proof.
  split; [reflexivity|].
  apply (@model_kept_without_warning Toy.numpy Toy.boom Toy.sampled
           [Toy.sample 1; Toy.one_component; Toy.sample 2]
           (Toy.mk_model 1 [] 1)).
  reflexivity.
Defined.

Lemma mixing_weights_shape_after_mcmc_witness :
  eval (mcmc 3 None None) Toy.configured = Ok () ∧
  niter (exec (mcmc 3 None None) Toy.configured) = Ok 3 ∧
  ∃ w, mixing_weights (exec (mcmc 3 None None) Toy.configured)
         = Ok (Some w) ∧
       Np.shape w = (3, 1).
Proof.
  split; [reflexivity|].
  apply (@mixing_weights_shape_after_mcmc Toy.numpy Toy.boom 0%Z
           [Toy.one_component] 3 None None).
  reflexivity.
Defined.

Lemma add_component_after_sampling_witness :
  eval (mcmc 2 None None) Toy.configured = Ok () ∧
  niter (exec (add_component () () 1%Z)
           (exec (mcmc 2 None None) Toy.configured)) = Ok 0 ∧
  mixing_weights (exec (add_component () () 1%Z)
                    (exec (mcmc 2 None None) Toy.configured)) = Ok None.
Proof.
  split; [reflexivity|].
  destruct (@add_component_after_sampling Toy.numpy Toy.boom Toy.configured
              2 None None () () 1%Z) as (Hn & Hw & _); [reflexivity|].
  by split.
Defined.

Lemma unassigned_before_first_component_witness :
  add_component_calls [ToyRuns.add ToyRuns.counts_table] = 0 ∧
  mcmc_calls [ToyRuns.add ToyRuns.counts_table] = 0 ∧
  niter (after [ToyRuns.add ToyRuns.counts_table] Toy.fresh)
    = Raise AttributeError ∧
  a (after [ToyRuns.add ToyRuns.counts_table] Toy.fresh)
    = Raise AttributeError.
Proof.
  split; [reflexivity|]. split; [reflexivity|].
  destruct (@unassigned_before_first_component Toy.numpy Toy.boom 0%Z
              [ToyRuns.add ToyRuns.counts_table])
    as (Hn & _ & Ha & _); [reflexivity|reflexivity|].
  by split.
Defined.

Lemma matrices_without_components_witness :
  add_component_calls [ToyRuns.add ToyRuns.counts_table] = 0 ∧
  eval (mcmc 2 None None) (after [ToyRuns.add ToyRuns.counts_table] Toy.fresh)
    = Ok () ∧
  yields_shape
    (means (exec (mcmc 2 None None)
              (after [ToyRuns.add ToyRuns.counts_table] Toy.fresh))) 2 0.
Proof.
  split; [reflexivity|]. split; [reflexivity|].
  destruct (@matrices_without_components Toy.numpy Toy.boom 0%Z
              [ToyRuns.add ToyRuns.counts_table] 2 None None)
    as (_ & _ & Hmeans & _); [reflexivity|reflexivity|].
  exact Hmeans.
Defined.


End Runs.
